(** * operable: tool handlers, registration and OAuth scopes

    A shallow embedding of the Go sources of the operable MCP server
    ([cmd/main.go], [pkg/auth/oauth.go], [pkg/tools/*.go]) and the
    properties of its tool handlers.

    Layout: the parts of the Go runtime and standard library the handlers
    rely on come first (strings, strconv/fmt verbs, time), then the mcp-go
    data types, the handler monad, package [auth], package [tools], and
    finally the theorems. *)

From Stdlib Require Import ZArith String Ascii List Bool Lia.
From Stdlib Require Import DecimalString.
From Stdlib Require Import Floats.SpecFloat.
From stdpp Require Import base option list gmap strings.

Local Open Scope string_scope.
Local Open Scope Z_scope.

(* ===================================================================== *)
(** * The Go runtime and standard library, as far as the handlers use it *)
(* ===================================================================== *)

(** Go strings are byte sequences; [string] is a list of 8-bit characters. *)

Definition newline : string := String (ascii_of_nat 10) EmptyString.
Definition quote : string := String (ascii_of_nat 34) EmptyString.

Module GoStrings.

Definition isUpperASCII (c : ascii) : bool :=
  let n := nat_of_ascii c in (Nat.leb 65 n) && (Nat.leb n 90).

Definition lowerByte (c : ascii) : ascii :=
  if isUpperASCII c then ascii_of_nat (nat_of_ascii c + 32) else c.

(** [strings.ToLower] on the ASCII range.  Go also lower-cases letters
    outside ASCII; bytes above 127 are left as they are here. *)
Fixpoint ToLower (s : string) : string :=
  match s with
  | EmptyString => EmptyString
  | String c r => String (lowerByte c) (ToLower r)
  end.

Fixpoint HasPrefix (s prefix : string) : bool :=
  match prefix, s with
  | EmptyString, _ => true
  | String p ps, String c cs => if Ascii.eqb p c then HasPrefix cs ps else false
  | String _ _, EmptyString => false
  end.

(** [strings.Contains s substr] *)
Fixpoint Contains (s substr : string) : bool :=
  HasPrefix s substr ||
  match s with
  | EmptyString => false
  | String _ r => Contains r substr
  end.

(** The last element of [strings.Split(s, "/")]: the text after the last
    slash, or all of [s] when it has none. *)
Fixpoint lastSegment (s : string) (cur : string) : string :=
  match s with
  | EmptyString => cur
  | String c r =>
      if Ascii.eqb c "/"%char then lastSegment r EmptyString
      else lastSegment r (cur +:+ String c EmptyString)
  end.

Definition empty (s : string) : bool :=
  match s with EmptyString => true | _ => false end.

End GoStrings.

(** ** float64 and integer conversions *)

(** IEEE 754 binary64 values, by sign, mantissa and exponent. *)
Definition float64 : Type := spec_float.

Module GoFloat.

Definition prec : Z := 53.
Definition emax : Z := 1024.

(** The float64 nearest to an integer (exact for the literals used). *)
Definition ofZ (z : Z) : float64 := binary_normalize prec emax z 0 false.

(** [val > 0] *)
Definition gt0 (val : float64) : bool := SFltb (S754_zero false) val.

(** [val != 0] *)
Definition nonzero (val : float64) : bool :=
  match SFcompare val (S754_zero false) with
  | Some Eq => false
  | _ => true
  end.

(** The integer part, for finite values. *)
Definition trunc (f : float64) : option Z :=
  match f with
  | S754_zero _ => Some 0
  | S754_finite s m e =>
      let a := if 0 <=? e then Z.pos m * 2 ^ e else Z.pos m / 2 ^ (- e) in
      Some (if s then - a else a)
  | _ => None
  end.

(** Conversion of a float64 to a signed integer of [bits] bits: the
    fraction is discarded.  For a value outside the target range (and for
    NaN and the infinities) Go leaves the result to the implementation;
    the value here is the one produced on amd64, the minimum integer. *)
Definition toInt (bits : Z) (f : float64) : Z :=
  let lo := - 2 ^ (bits - 1) in
  match trunc f with
  | Some z => if (lo <=? z) && (z <? 2 ^ (bits - 1)) then z else lo
  | None => lo
  end.

Definition int (f : float64) : Z := toInt 64 f.
Definition int32 (f : float64) : Z := toInt 32 f.

(** Two's complement wrap-around of int64 arithmetic. *)
Definition wrap64 (z : Z) : Z := (z + 2 ^ 63) mod 2 ^ 64 - 2 ^ 63.

End GoFloat.

(** ** fmt verbs *)

Module GoFmt.

(** [%d] *)
Definition d (z : Z) : string := NilZero.string_of_int (Z.to_int z).

(** [%t] *)
Definition t (b : bool) : string := if b then "true" else "false".

Fixpoint zeros (n : nat) : string :=
  match n with O => EmptyString | S k => String "0"%char (zeros k) end.

(** Left-pad with zeros to [width] characters. *)
Definition zeroPad (width : nat) (s : string) : string :=
  zeros (width - String.length s) +:+ s.

Fixpoint splitAt (n : nat) (s : string) : string * string :=
  match n, s with
  | S k, String c r => let '(a, b) := splitAt k r in (String c a, b)
  | _, _ => (EmptyString, s)
  end.

(** [%.<p>f]: the exact binary value rounded to [p] decimals, ties to
    even, as strconv.FormatFloat(f, 'f', p, 64) does. *)
Definition f (p : nat) (x : float64) : string :=
  let frac (digits : string) :=
    let ds := zeroPad (S p) digits in
    let '(ip, fp) := splitAt (String.length ds - p) ds in
    match p with O => ip | _ => ip +:+ "." +:+ fp end in
  match x with
  | S754_nan => "NaN"
  | S754_infinity s => if s then "-Inf" else "+Inf"
  | S754_zero s => (if s then "-" else "") +:+ frac "0"
  | S754_finite s m e =>
      let scaled := Z.pos m * 10 ^ Z.of_nat p in
      let n :=
        if 0 <=? e then scaled * 2 ^ e
        else
          let dv := 2 ^ (- e) in
          let q := scaled / dv in
          let r := scaled mod dv in
          if (dv <? 2 * r) || ((2 * r =? dv) && Z.odd q) then q + 1 else q in
      (if s then "-" else "") +:+ frac (d n)
  end.

End GoFmt.

(** ** Package time *)

Module GoTime.

(** Calendar date (year, month, day) of a day count relative to
    1970-01-01, proleptic Gregorian calendar. *)
Definition civil (days : Z) : Z * Z * Z :=
  let z := days + 719468 in
  let era := z / 146097 in
  let doe := z - era * 146097 in
  let yoe := (doe - doe / 1460 + doe / 36524 - doe / 146096) / 365 in
  let y := yoe + era * 400 in
  let doy := doe - (365 * yoe + yoe / 4 - yoe / 100) in
  let mp := (5 * doy + 2) / 153 in
  let dd := doy - (153 * mp + 2) / 5 + 1 in
  let m := if mp <? 10 then mp + 3 else mp - 9 in
  (if m <=? 2 then y + 1 else y, m, dd).

(** What a [time.Time] shows when formatted: the wall clock reading in
    its location, and that location's offset east of UTC in seconds.
    Fractions of a second are not kept: no layout used here prints
    them. *)
Record Time := {
  Year : Z; Month : Z; Day : Z;
  Hour : Z; Minute : Z; Second : Z;
  Offset : Z
}.

(** The reading of the instant [sec] seconds after the Unix epoch in a
    zone [offset] seconds east of UTC. *)
Definition atOffset (sec offset : Z) : Time :=
  let local := sec + offset in
  let '(y, m, dd) := civil (local / 86400) in
  let r := local mod 86400 in
  {| Year := y; Month := m; Day := dd;
     Hour := r / 3600; Minute := (r mod 3600) / 60; Second := r mod 60;
     Offset := offset |}.

(** [time.Unix(sec, nsec).UTC()] *)
Definition UnixUTC (sec nsec : Z) : Time := atOffset (sec + nsec / 1000000000) 0.

(** [appendInt]: sign, zero padding to [width], digits. *)
Definition appendInt (x : Z) (width : nat) : string :=
  (if x <? 0 then "-" else "") +:+ GoFmt.zeroPad width (GoFmt.d (Z.abs x)).

Definition date (t : Time) : string :=
  appendInt (Year t) 4 +:+ "-" +:+ appendInt (Month t) 2 +:+ "-" +:+ appendInt (Day t) 2.

Definition clock (t : Time) : string :=
  appendInt (Hour t) 2 +:+ ":" +:+ appendInt (Minute t) 2 +:+ ":" +:+ appendInt (Second t) 2.

(** The zone of the layout element [Z07:00]. *)
Definition zoneISO8601 (offset : Z) : string :=
  if offset =? 0 then "Z"
  else
    let zone := Z.quot offset 60 in
    (if zone <? 0 then "-" else "+") +:+
    appendInt (Z.quot (Z.abs zone) 60) 2 +:+ ":" +:+ appendInt (Z.rem (Z.abs zone) 60) 2.

(** [t.Format(time.RFC3339)], layout [2006-01-02T15:04:05Z07:00] *)
Definition FormatRFC3339 (t : Time) : string :=
  date t +:+ "T" +:+ clock t +:+ zoneISO8601 (Offset t).

(** [t.Format("2006-01-02 15:04:05")] *)
Definition FormatDateTime (t : Time) : string :=
  date t +:+ " " +:+ clock t.

(** *** [time.Parse(time.RFC3339, value)] *)

Definition isDigit (c : ascii) : bool :=
  let n := nat_of_ascii c in (Nat.leb 48 n) && (Nat.leb n 57).

Definition digit (c : ascii) : Z := Z.of_nat (nat_of_ascii c) - 48.

(** [getnum]: two digits, or a single one when the field is not fixed. *)
Definition getnum (s : string) (fixed : bool) : option (Z * string) :=
  match s with
  | String c0 rest =>
      if isDigit c0 then
        match rest with
        | String c1 rest' =>
            if isDigit c1 then Some (digit c0 * 10 + digit c1, rest')
            else if fixed then None else Some (digit c0, rest)
        | EmptyString => if fixed then None else Some (digit c0, rest)
        end
      else None
  | EmptyString => None
  end.

(** [skip]: the literal text between two layout elements. *)
Definition skip (value : string) (c : ascii) : option string :=
  match value with
  | String v rest => if Ascii.eqb v c then Some rest else None
  | EmptyString => None
  end.

(** The element [2006]: exactly four digits. *)
Definition longYear (value : string) : option (Z * string) :=
  match value with
  | String a (String b (String c (String e rest))) =>
      if isDigit a && isDigit b && isDigit c && isDigit e
      then Some (((digit a * 10 + digit b) * 10 + digit c) * 10 + digit e, rest)
      else None
  | _ => None
  end.

Fixpoint skipDigits (s : string) : string :=
  match s with
  | String c r => if isDigit c then skipDigits r else s
  | EmptyString => s
  end.

Definition commaOrPeriod (c : ascii) : bool :=
  Ascii.eqb c "."%char || Ascii.eqb c ","%char.

(** A fractional second after the seconds is read although the layout has
    none. *)
Definition fractionalSecond (value : string) : string :=
  match value with
  | String c0 (String c1 r) =>
      if commaOrPeriod c0 && isDigit c1 then skipDigits r else value
  | _ => value
  end.

(** The element [Z07:00]: the letter Z, or a signed hh:mm offset. *)
Definition zoneOffset (value : string) : option (Z * string) :=
  match value with
  | String "Z"%char rest => Some (0, rest)
  | String sign (String h1 (String h2 (String colon (String m1 (String m2 rest))))) =>
      if negb (Ascii.eqb colon ":"%char) then None
      else
        '(hr, _) ← getnum (String h1 (String h2 EmptyString)) true;
        '(mm, _) ← getnum (String m1 (String m2 EmptyString)) true;
        if (24 <? hr) || (60 <? mm) then None
        else if Ascii.eqb sign "+"%char then Some ((hr * 60 + mm) * 60, rest)
        else if Ascii.eqb sign "-"%char then Some (- ((hr * 60 + mm) * 60), rest)
        else None
  | _ => None
  end.

Definition isLeap (year : Z) : bool :=
  (year mod 4 =? 0) && (negb (year mod 100 =? 0) || (year mod 400 =? 0)).

Definition daysIn (month year : Z) : Z :=
  if (month =? 2) && isLeap year then 29
  else if month =? 2 then 28
  else if (month =? 4) || (month =? 6) || (month =? 9) || (month =? 11) then 30
  else 31.

(** Go reads the value element by element and fails at the first one
    that does not match or is out of range; the day is checked against
    the month at the end.  The reading of a parsed time is the date and
    clock as written, in the zone as written. *)
Definition ParseRFC3339 (value : string) : option Time :=
  '(year, value) ← longYear value;
  value ← skip value "-"%char;
  '(month, value) ← getnum value true;
  if (month <=? 0) || (12 <? month) then None else
  value ← skip value "-"%char;
  '(day, value) ← getnum value true;
  value ← skip value "T"%char;
  '(hour, value) ← getnum value false;
  if 24 <=? hour then None else
  value ← skip value ":"%char;
  '(min, value) ← getnum value true;
  if 60 <=? min then None else
  value ← skip value ":"%char;
  '(sec, value) ← getnum value true;
  if 60 <=? sec then None else
  let value := fractionalSecond value in
  '(offset, value) ← zoneOffset value;
  if negb (GoStrings.empty value) then None else
  if (day <? 1) || (daysIn month year <? day) then None else
  Some {| Year := year; Month := month; Day := day;
          Hour := hour; Minute := min; Second := sec; Offset := offset |}.

End GoTime.

(* ===================================================================== *)
(** * mcp-go: requests, results, tools and the server's tool table *)
(* ===================================================================== *)

(** A decoded JSON value ([interface{}] after encoding/json). *)
#[warnings="-register-all"]
Inductive Value :=
| VNil
| VBool (b : bool)
| VNumber (f : float64)
| VString (s : string)
| VArray (l : list Value)
| VObject (l : list (string * Value)).

Module mcp.

(** [request.Params]: tool name and the untyped argument map. *)
Record CallToolRequest := {
  Name : string;
  Arguments : gmap string Value
}.

Inductive Content := TextContent (text : string).

Record CallToolResult := {
  Content_ : list Content;
  IsError : bool
}.

Definition NewToolResultText (text : string) : CallToolResult :=
  {| Content_ := [TextContent text]; IsError := false |}.

Definition NewToolResultError (text : string) : CallToolResult :=
  {| Content_ := [TextContent text]; IsError := true |}.

(** The text blocks of a result, in order. *)
Definition texts (r : CallToolResult) : list string :=
  map (fun c => match c with TextContent t => t end) (Content_ r).

Inductive PropertyType := TString | TNumber | TBoolean.

Record Property := {
  PropName : string;
  PropType : PropertyType;
  PropRequired : bool;
  PropDescription : string
}.

(** A tool and its input schema; the properties are kept in the order
    of their declaration. *)
Record Tool := {
  ToolName : string;
  ToolDescription : string;
  Properties : list Property
}.

Definition PropertyOption := Property -> Property.
Definition ToolOption := Tool -> Tool.

Definition Required : PropertyOption := fun p =>
  {| PropName := PropName p; PropType := PropType p;
     PropRequired := true; PropDescription := PropDescription p |}.

Definition Description (text : string) : PropertyOption := fun p =>
  {| PropName := PropName p; PropType := PropType p;
     PropRequired := PropRequired p; PropDescription := text |}.

Definition WithDescription (text : string) : ToolOption := fun t =>
  {| ToolName := ToolName t; ToolDescription := text; Properties := Properties t |}.

Definition withProperty (ty : PropertyType) (name : string)
    (opts : list PropertyOption) : ToolOption := fun t =>
  let p0 := {| PropName := name; PropType := ty;
               PropRequired := false; PropDescription := "" |} in
  {| ToolName := ToolName t; ToolDescription := ToolDescription t;
     Properties := (Properties t ++ [fold_left (fun p o => o p) opts p0])%list |}.

Definition WithString := withProperty TString.
Definition WithNumber := withProperty TNumber.

Definition NewTool (name : string) (opts : list ToolOption) : Tool :=
  fold_left (fun t o => o t) opts
    {| ToolName := name; ToolDescription := ""; Properties := [] |}.

(** [x, ok := v.(string)] on the result of a map lookup *)
Definition asString (v : option Value) : string * bool :=
  match v with
  | Some (VString s) => (s, true)
  | _ => ("", false)
  end.

(** [x, ok := v.(float64)] *)
Definition asFloat64 (v : option Value) : float64 * bool :=
  match v with
  | Some (VNumber f) => (f, true)
  | _ => (S754_zero false, false)
  end.

End mcp.

(* ===================================================================== *)
(** * What the remote APIs send back                                      *)
(* ===================================================================== *)

(** The structs the handlers decode the JSON responses into. *)

Module ListClusters.
Record Cluster := {
  Name : string; Description : string; Location : string; Status : string;
  NodeCount : Z; MasterVersion : string; NodeVersion : string;
  Network : string; Subnetwork : string;
  ClusterIpv4Cidr : string; ServicesIpv4Cidr : string;
  Endpoint : string; CreateTime : string
}.
Record Response := { Clusters : list Cluster }.
End ListClusters.

Module ClusterInfo.
Record DailyMaintenanceWindow := { StartTime : string; Duration : string }.
Record NetworkConfig := { NcNetwork : string; NcSubnetwork : string }.
Record AddonsConfig := {
  HttpLoadBalancingDisabled : bool;
  HorizontalPodAutoscalingDisabled : bool;
  KubernetesDashboardDisabled : bool;
  NetworkPolicyConfigDisabled : bool
}.
Record Cluster := {
  Name : string; Description : string; Location : string; Status : string;
  NodeCount : Z; MasterVersion : string; NodeVersion : string;
  Network : string; Subnetwork : string;
  ClusterIpv4Cidr : string; ServicesIpv4Cidr : string;
  Endpoint : string; CreateTime : string;
  MaintenanceWindow : DailyMaintenanceWindow;
  Networking : NetworkConfig;
  Addons : AddonsConfig;
  Locations : list string;
  ResourceLabels : gmap string string
}.
End ClusterInfo.

Module NodePools.
Record Config := {
  MachineType : string; DiskSizeGb : Z; OauthScopes : list string;
  ServiceAccount : string; Preemptible : bool; Labels : gmap string string
}.
Record Autoscaling := { Enabled : bool; MinNodeCount : Z; MaxNodeCount : Z }.
Record Management := { AutoUpgrade : bool; AutoRepair : bool }.
Record NodePool := {
  Name : string; Status : string; Cfg : Config;
  InitialNodeCount : Z; Locations : list string;
  InstanceGroupUrls : list string; Version : string;
  Scaling : Autoscaling; Mgmt : Management
}.
Record Response := { Pools : list NodePool }.
End NodePools.

Module Metrics.
Record LabelValue := { StringValue : string; BoolValue : bool; Int64Value : string }.
Record PointValue := {
  DoubleValue : float64; PvInt64Value : string;
  PvBoolValue : bool; PvStringValue : string
}.
Record TimeInterval := { StartTime : string; EndTime : string }.
Record Point := { Values : list PointValue; Interval : TimeInterval }.
Record TimeSeries := { LabelValues : list LabelValue; PointData : list Point }.
Record LabelDescriptor := { Key : string; ValueType : string; Description : string }.
Record PointDescriptor := {
  PdKey : string; PdValueType : string; MetricKind : string;
  Unit : string; PdDescription : string
}.
Record Descriptor := {
  LabelDescriptors : list LabelDescriptor;
  PointDescriptors : list PointDescriptor
}.
Record Response := {
  TimeSeriesData : list TimeSeries;
  TimeSeriesDescriptor : Descriptor
}.
End Metrics.

Module Alerts.
Record Condition := { CName : string; CDisplayName : string; CSeverity : string }.
Record AlertPolicy := {
  Name : string; DisplayName : string; DocumentationContent : string;
  Conditions : list Condition; Enabled : bool
}.
Record PoliciesResponse := { AlertPolicies : list AlertPolicy }.
Record Incident := {
  IName : string; ResourceName : string; PolicyName : string;
  ConditionName : string; StartTime : string; EndTime : string;
  State : string; Summary : string; Documentation : string;
  Severity : string; ResourceDisplayName : string
}.
Record IncidentsResponse := { Incidents : list Incident }.
End Alerts.

(** A decoded [jsonPayload] object ([map[string]interface{}]), given by
    what the handlers observe of it: the [%v] rendering of its "message"
    member when it has one, and what json.Marshal and json.MarshalIndent
    make of it (the bytes, or an error). *)
Record JsonPayload := {
  message : option string;
  Marshal : string + string;
  MarshalIndent : string + string
}.

Module Logs.
Record Resource := { Type_ : string; RLabels : gmap string string }.
Record Entry := {
  LogName : string; Res : Resource; Timestamp : string; Severity : string;
  TextPayload : string; Json : option JsonPayload; Labels : gmap string string
}.
Record Response := { Entries : list Entry; NextPageToken : string }.
End Logs.

Module PodLogs.
Record Entry := {
  Timestamp : string; Severity : string; TextPayload : string;
  Json : option JsonPayload; ResourceLabels : gmap string string
}.
Record Response := { Entries : list Entry; NextPageToken : string }.
End PodLogs.

(** The Error Reporting API (errorreportingpb). *)
Module errorreportingpb.
Inductive Period :=
| PERIOD_UNSPECIFIED | PERIOD_1_HOUR | PERIOD_6_HOURS
| PERIOD_1_DAY | PERIOD_1_WEEK | PERIOD_30_DAYS.
Inductive TimedCountAlignment :=
| ERROR_COUNT_ALIGNMENT_UNSPECIFIED | ALIGNMENT_EQUAL_ROUNDED | ALIGNMENT_EQUAL_AT_END.
Record ListGroupStatsRequest := {
  ProjectName : string; TimeRangePeriod : Period;
  PageSize : Z; Alignment : TimedCountAlignment
}.
Record ListEventsRequest := {
  EvProjectName : string; GroupId : string; EvPageSize : Z
}.
Record Timestamp := { Seconds : Z; Nanos : Z }.
Definition AsTime (ts : Timestamp) : GoTime.Time :=
  GoTime.UnixUTC (Seconds ts) (Nanos ts).
Record ServiceContext := { Service : string; Version : string }.
Record ErrorGroup := { GroupName : string }.
(** Message-typed fields are pointers and may be nil. *)
Record ErrorGroupStats := {
  Group : option ErrorGroup; Count : Z;
  FirstSeenTime : option Timestamp; LastSeenTime : option Timestamp;
  AffectedServices : list ServiceContext
}.
Record HttpRequestContext := {
  Method : string; Url : string; UserAgent : string;
  Referrer : string; RemoteIp : string
}.
Record SourceLocation := { FilePath : string; LineNumber : Z; FunctionName : string }.
Record ErrorContext := {
  HttpRequest : option HttpRequestContext;
  ReportLocation : option SourceLocation
}.
Record ErrorEvent := {
  EventTime : option Timestamp; SvcContext : option ServiceContext;
  Message : string; Context : option ErrorContext
}.
End errorreportingpb.

(* ===================================================================== *)
(** * The environment of a call                                           *)
(* ===================================================================== *)

(** The value handed to json.Marshal as a request body. *)
#[warnings="-register-all"]
Inductive Json :=
| JString (s : string)
| JInt (z : Z)
| JArray (l : list Json)
| JObject (members : list (string * Json)).

Module http.

Definition StatusOK : Z := 200.

Record Request := {
  Method : string;
  URL : string;
  ReqBody : option Json;
  Header : list (string * string)
}.

(** A response body, given by what [json.NewDecoder(body).Decode] makes of
    it for each of the structs the handlers decode into: the decoder's
    error, or the decoded value. *)
Record Body := {
  asListClusters : string + ListClusters.Response;
  asCluster : string + ClusterInfo.Cluster;
  asNodePools : string + NodePools.Response;
  asMetrics : string + Metrics.Response;
  asPolicies : string + Alerts.PoliciesResponse;
  asIncidents : string + Alerts.IncidentsResponse;
  asLogs : string + Logs.Response;
  asPodLogs : string + PodLogs.Response
}.

Record Response := {
  StatusCode : Z;
  Status : string;
  RespBody : Body
}.

(** An authenticated client, by the scopes its token source asks for. *)
Record Client := { Scopes : list string }.

End http.

Module option_.
(** google.golang.org/api/option *)
Inductive ClientOption :=
| WithCredentialsFile (file : string)
| WithHTTPClient (c : http.Client).
End option_.

(** What a handler asks of the outside world, in the order it asks. *)
Inductive Event :=
| FindDefaultCredentials (scopes : list string)
| ClientDo (c : http.Client) (req : http.Request)
| NewErrorStatsClient (opts : list option_.ClientOption)
| ListGroupStats (req : errorreportingpb.ListGroupStatsRequest)
| ListEvents (req : errorreportingpb.ListEventsRequest).

(** Everything outside the repository a call depends on.  Errors are Go
    error values, kept as their message. *)
Record World := {
  (** google.FindDefaultCredentials: [Some err] when it fails *)
  findDefaultCredentials : list string -> option string;
  (** time.Now(), in nanoseconds since the Unix epoch *)
  now : Z;
  (** offset east of UTC, in seconds, of the local zone at an instant
      given in Unix seconds *)
  localOffset : Z -> Z;
  (** http.NewRequestWithContext(ctx, method, url, body): [Some err] when
      the method or the URL is rejected *)
  newRequestError : string -> string -> option string;
  (** client.Do(req): a transport error, or the response *)
  roundTrip : http.Request -> string + http.Response;
  (** errorreporting.NewErrorStatsClient: [Some err] when it fails *)
  newErrorStatsClientError : list option_.ClientOption -> option string;
  (** What the iterator of client.ListGroupStats yields before it ends,
      with iterator.Done ([None]) or with an error *)
  listGroupStats :
    errorreportingpb.ListGroupStatsRequest ->
    list errorreportingpb.ErrorGroupStats * option string;
  (** The same for client.ListEvents *)
  listEvents :
    errorreportingpb.ListEventsRequest ->
    list errorreportingpb.ErrorEvent * option string;
  (** The order in which the [site]-th range statement over a map visits
      the entries.  Go does not specify it; see [fair]. *)
  rangeOrder : nat -> forall V : Type, list (string * V) -> list (string * V)
}.

(** Every range over a map visits each entry exactly once. *)
Definition fair (w : World) : Prop :=
  forall site V (l : list (string * V)), rangeOrder w site V l ≡ₚ l.

(** [for k, v := range m]: the entries of [m] in the order of this run. *)
Definition rangeMap {V : Type} (w : World) (site : nat) (m : gmap string V)
  : list (string * V) :=
  rangeOrder w site V (map_to_list m).

(** ** The handler monad *)

(** How a call ends: the handler returns a result and an error, or the
    goroutine panics. *)
Inductive Completion :=
| Returned (result : mcp.CallToolResult) (err : option string)
| Panicked (msg : string).

Record Outcome := {
  trace : list Event;
  completion : Completion
}.

Inductive Step (A : Type) :=
| Next (a : A)
| Stop (c : Completion).
Arguments Next {A} a.
Arguments Stop {A} c.

(** A computation reads the world, appends to the trace of events, and
    either goes on with a value or leaves the handler. *)
Definition M (A : Type) : Type := World -> list Event -> list Event * Step A.

Definition pure {A} (a : A) : M A := fun _ tr => (tr, Next a).

Definition bind {A B} (m : M A) (k : A -> M B) : M B := fun w tr =>
  match m w tr with
  | (tr', Next a) => k a w tr'
  | (tr', Stop c) => (tr', Stop c)
  end.

Notation "x <- m ;; k" := (bind m (fun x => k))
  (at level 100, m at next level, right associativity).
Notation "m ;;; k" := (bind m (fun _ => k))
  (at level 100, right associativity).

(** [return result, nil] *)
Definition return_ {A} (result : mcp.CallToolResult) : M A :=
  fun _ tr => (tr, Stop (Returned result None)).

Definition panic {A} (msg : string) : M A :=
  fun _ tr => (tr, Stop (Panicked msg)).

Definition world : M World := fun w tr => (tr, Next w).

Definition emit (e : Event) : M unit := fun _ tr => ((tr ++ [e])%list, Next tt).

(** [if cond { return result, nil }] *)
Definition returnIf (cond : bool) (result : mcp.CallToolResult) : M unit :=
  if cond then return_ result else pure tt.

Definition run (m : M mcp.CallToolResult) (w : World) : Outcome :=
  match m w [] with
  | (tr, Next r) => {| trace := tr; completion := Returned r None |}
  | (tr, Stop c) => {| trace := tr; completion := c |}
  end.

(** ** Loops that build a string *)

(** [for i, x := range xs { result += body i x }] *)
Fixpoint rangeFrom {A} (i : nat) (xs : list A) (body : nat -> A -> string) : string :=
  match xs with
  | [] => ""
  | x :: r => body i x +:+ rangeFrom (S i) r body
  end.
Definition rangeString {A} (xs : list A) (body : nat -> A -> string) : string :=
  rangeFrom 0 xs body.

(** [v, err := f(); if err != nil { return onError(err), nil }] *)
Definition try {A} (m : M (string + A)) (onError : string -> mcp.CallToolResult) : M A :=
  r <- m ;;
  match r with
  | inl err => return_ (onError err)
  | inr a => pure a
  end.

(** ** net/http and time, against the world *)

(** [http.NewRequestWithContext(ctx, method, url, body)] *)
Definition NewRequestWithContext (method url : string) (body : option Json)
  : M (string + http.Request) :=
  w <- world ;;
  match newRequestError w method url with
  | Some err => pure (inl err)
  | None =>
      pure (inr {| http.Method := method; http.URL := url;
                   http.ReqBody := body; http.Header := [] |})
  end.

(** [req.Header.Set(key, value)] on a request without that header *)
Definition HeaderSet (req : http.Request) (key value : string) : http.Request :=
  {| http.Method := http.Method req; http.URL := http.URL req;
     http.ReqBody := http.ReqBody req;
     http.Header := (http.Header req ++ [(key, value)])%list |}.

(** [client.Do(req)] *)
Definition Do (client : http.Client) (req : http.Request) : M (string + http.Response) :=
  emit (ClientDo client req) ;;;
  w <- world ;;
  pure (roundTrip w req).

(** Instants are nanoseconds since the Unix epoch; durations are int64
    nanoseconds. *)
Definition Hour : Z := 3600000000000.

(** [time.Now()] *)
Definition Now : M Z := w <- world ;; pure (now w).

(** [t.Add(d)] *)
Definition Add (t d : Z) : Z := t + d.

(** [endTime.Add(-time.Duration(hours) * time.Hour)]: the hours lose their
    fraction in the conversion, and the product wraps around in int64. *)
Definition hoursBefore (endTime : Z) (hours : float64) : Z :=
  Add endTime (GoFloat.wrap64 (GoFloat.wrap64 (- GoFloat.int hours) * Hour)).

(** The reading of an instant in the local zone, as [time.Now()] and the
    times derived from it show it. *)
Definition inLocal (w : World) (t : Z) : GoTime.Time :=
  let sec := t / 1000000000 in
  GoTime.atOffset sec (localOffset w sec).

(** ** The mcp-go server *)

Module server.

(** A tool handler returns a result and an error; here, a computation
    that ends in a [Completion]. *)
Definition ToolHandlerFunc : Type := mcp.CallToolRequest -> M mcp.CallToolResult.

Record ServerTool := {
  Tool : mcp.Tool;
  Handler : ToolHandlerFunc
}.

Record MCPServer := {
  name : string;
  version : string;
  tools : gmap string ServerTool
}.

Definition NewMCPServer (name version : string) : MCPServer :=
  {| name := name; version := version; tools := ∅ |}.

(** [s.AddTool(tool, handler)] stores the entry under the tool's name
    ([s.tools[tool.Name] = ...]) and has no result. *)
Definition AddTool (s : MCPServer) (tool : mcp.Tool) (handler : ToolHandlerFunc)
  : MCPServer :=
  {| name := name s; version := version s;
     tools := <[ mcp.ToolName tool := {| Tool := tool; Handler := handler |} ]> (tools s) |}.

(** What the server does with a tools/call request: [None] when no tool
    of that name is registered (a protocol-level error), else the
    outcome of the tool's handler. *)
Definition invoke (s : MCPServer) (toolName : string)
    (arguments : gmap string Value) (w : World) : option Outcome :=
  tool ← tools s !! toolName;
  Some (run (Handler tool {| mcp.Name := toolName; mcp.Arguments := arguments |}) w).

End server.

(** ** The Error Reporting client *)

Module errorreporting.

Inductive ErrorStatsClient := Client.

(** [errorreporting.NewErrorStatsClient(ctx, opts...)] *)
Definition NewErrorStatsClient (opts : list option_.ClientOption)
  : M (string + ErrorStatsClient) :=
  emit (NewErrorStatsClient opts) ;;;
  w <- world ;;
  match newErrorStatsClientError w opts with
  | Some err => pure (inl err)
  | None => pure (inr Client)
  end.

(** [for { x, err := it.Next(); ... }]: the items up to iterator.Done, or
    the error the iteration ends with *)
Definition drain {A} (items_end : list A * option string) : string + list A :=
  match items_end.2 with
  | Some err => inl err
  | None => inr items_end.1
  end.

(** [client.ListGroupStats(ctx, req)], iterated to its end *)
Definition ListGroupStats (_ : ErrorStatsClient)
    (req : errorreportingpb.ListGroupStatsRequest)
  : M (string + list errorreportingpb.ErrorGroupStats) :=
  emit (ListGroupStats req) ;;;
  w <- world ;;
  pure (drain (listGroupStats w req)).

(** [client.ListEvents(ctx, req)], iterated to its end *)
Definition ListEvents (_ : ErrorStatsClient)
    (req : errorreportingpb.ListEventsRequest)
  : M (string + list errorreportingpb.ErrorEvent) :=
  emit (ListEvents req) ;;;
  w <- world ;;
  pure (drain (listEvents w req)).

End errorreporting.

(* ===================================================================== *)
(** * Package auth ([pkg/auth/oauth.go])                                  *)
(* ===================================================================== *)

Module auth.

(** ReadOnlyScopes are the scopes required for diagnostic operations *)
Definition ReadOnlyScopes : list string := [
  "https://www.googleapis.com/auth/cloud-platform.read-only";
  "https://www.googleapis.com/auth/logging.read";
  "https://www.googleapis.com/auth/monitoring.read";
  "https://www.googleapis.com/auth/compute.readonly";
  "https://www.googleapis.com/auth/container.readonly"
].

(** ReadWriteScopes are the scopes required for remediation operations *)
Definition ReadWriteScopes : list string := [
  "https://www.googleapis.com/auth/cloud-platform";
  "https://www.googleapis.com/auth/logging.admin";
  "https://www.googleapis.com/auth/monitoring";
  "https://www.googleapis.com/auth/compute";
  "https://www.googleapis.com/auth/container"
].

Record OAuthHandler := {
  clientID : string;
  clientSecret : string;
  currentScopes : list string;
  credentialsFile : string
}.

(** The environment variables NewOAuthHandler reads; an unset variable
    reads as the empty string. *)
Record Environ := {
  GOOGLE_CLIENT_ID : string;
  GOOGLE_CLIENT_SECRET : string;
  GOOGLE_APPLICATION_CREDENTIALS : string
}.

Definition NewOAuthHandler (env : Environ) : string + OAuthHandler :=
  let clientID := GOOGLE_CLIENT_ID env in
  let clientSecret := GOOGLE_CLIENT_SECRET env in
  let credentialsFile := GOOGLE_APPLICATION_CREDENTIALS env in
  if (GoStrings.empty clientID || GoStrings.empty clientSecret)
     && GoStrings.empty credentialsFile
  then inl "either GOOGLE_CLIENT_ID and GOOGLE_CLIENT_SECRET or GOOGLE_APPLICATION_CREDENTIALS environment variables must be set"
  else inr {| clientID := clientID; clientSecret := clientSecret;
              credentialsFile := credentialsFile;
              currentScopes := ReadOnlyScopes |}.

(** GetClient returns an HTTP client with OAuth credentials.  Only the
    lookup of the default credentials can fail. *)
Definition GetClient (h : OAuthHandler) : M (string + http.Client) :=
  if negb (GoStrings.empty (credentialsFile h)) then
    emit (FindDefaultCredentials (currentScopes h)) ;;;
    w <- world ;;
    match findDefaultCredentials w (currentScopes h) with
    | Some err => pure (inl ("error finding default credentials: " +:+ err))
    | None => pure (inr {| http.Scopes := currentScopes h |})
    end
  else pure (inr {| http.Scopes := currentScopes h |}).

(** UpgradePermissions upgrades the permissions to read-write.  It
    returns the handler after the call and the (nil) error. *)
Definition UpgradePermissions (h : OAuthHandler) : OAuthHandler * option string :=
  if Nat.eqb (length (currentScopes h)) (length ReadWriteScopes) then (h, None)
  else
    ({| clientID := clientID h; clientSecret := clientSecret h;
        currentScopes := ReadWriteScopes;
        credentialsFile := credentialsFile h |}, None).

(** GetClientOptions returns the client options for the GCP SDK *)
Definition GetClientOptions (h : OAuthHandler) : M (string + list option_.ClientOption) :=
  if negb (GoStrings.empty (credentialsFile h)) then
    pure (inr [option_.WithCredentialsFile (credentialsFile h)])
  else
    r <- GetClient h ;;
    match r with
    | inl err => pure (inl ("error getting OAuth client: " +:+ err))
    | inr client => pure (inr [option_.WithHTTPClient client])
    end.

End auth.

(* ===================================================================== *)
(** * Package tools ([pkg/tools/*.go])                                     *)
(* ===================================================================== *)

Module tools.

Import mcp.
Abbreviation nl := newline.
Abbreviation empty := GoStrings.empty.

(** ** Kubernetes tools *)

Definition gcpContainerBaseURL : string := "https://container.googleapis.com/v1".

(** boolToEnabledString converts a boolean to "Enabled" or "Disabled" *)
Definition boolToEnabledString (b : bool) : string :=
  if b then "Enabled" else "Disabled".

(** One cluster of the list of handleListClusters *)
Definition clusterEntry (i : nat) (cluster : ListClusters.Cluster) : string :=
  "### " +:+ GoFmt.d (Z.of_nat i + 1) +:+ ". Cluster: "
    +:+ ListClusters.Name cluster +:+ nl
  +:+ "- **Location**: " +:+ ListClusters.Location cluster +:+ nl
  +:+ "- **Status**: " +:+ ListClusters.Status cluster +:+ nl
  +:+ "- **Node Count**: " +:+ GoFmt.d (ListClusters.NodeCount cluster) +:+ nl
  +:+ "- **Kubernetes Version**: " +:+ ListClusters.MasterVersion cluster
    +:+ " (master) / " +:+ ListClusters.NodeVersion cluster +:+ " (nodes)" +:+ nl
  +:+ "- **Endpoint**: " +:+ ListClusters.Endpoint cluster +:+ nl
  +:+ "- **Network**: " +:+ ListClusters.Network cluster +:+ nl
  +:+ "- **Subnetwork**: " +:+ ListClusters.Subnetwork cluster +:+ nl
  +:+ "- **Pod CIDR**: " +:+ ListClusters.ClusterIpv4Cidr cluster +:+ nl
  +:+ "- **Service CIDR**: " +:+ ListClusters.ServicesIpv4Cidr cluster +:+ nl
  +:+ "- **Created**: " +:+ ListClusters.CreateTime cluster +:+ nl
  +:+ (if negb (empty (ListClusters.Description cluster))
       then "- **Description**: " +:+ ListClusters.Description cluster +:+ nl
       else "")
  +:+ nl.

(** The "Format the results" part of handleListClusters *)
Definition clustersReport (projectID location : string)
    (response : ListClusters.Response) : string :=
  let clusters := ListClusters.Clusters response in
  if Nat.eqb (length clusters) 0 then
    "No GKE clusters found in project " +:+ projectID
    +:+ (if negb (empty location) then " in location " +:+ location else "")
    +:+ "."
  else
    "Found " +:+ GoFmt.d (Z.of_nat (length clusters))
    +:+ " GKE clusters in project " +:+ projectID
    +:+ (if negb (empty location) then " in location " +:+ location else "")
    +:+ ":" +:+ nl +:+ nl
    +:+ rangeString clusters clusterEntry.

(** handleListClusters handles the list_clusters tool request *)
Definition handleListClusters (request : CallToolRequest)
    (authHandler : auth.OAuthHandler) : M CallToolResult :=
  let '(projectID, ok) := asString (Arguments request !! "project_id") in
  returnIf (negb ok || empty projectID)
    (NewToolResultError "project_id must be a non-empty string") ;;;
  let '(location, _) := asString (Arguments request !! "location") in
  client <- try (auth.GetClient authHandler) (fun err =>
    NewToolResultError ("Error getting authenticated client: " +:+ err)) ;;
  let apiURL :=
    if empty location
    then gcpContainerBaseURL +:+ "/projects/" +:+ projectID +:+ "/locations/-/clusters"
    else gcpContainerBaseURL +:+ "/projects/" +:+ projectID +:+ "/locations/"
         +:+ location +:+ "/clusters" in
  req <- try (NewRequestWithContext "GET" apiURL None) (fun err =>
    NewToolResultError ("Error creating request: " +:+ err)) ;;
  resp <- try (Do client req) (fun err =>
    NewToolResultError ("Error making request to Container API: " +:+ err)) ;;
  returnIf (negb (http.StatusCode resp =? http.StatusOK))
    (NewToolResultError ("Error from Container API: " +:+ http.Status resp)) ;;;
  response <- try (pure (http.asListClusters (http.RespBody resp))) (fun err =>
    NewToolResultError ("Error parsing response: " +:+ err)) ;;
  pure (NewToolResultText (clustersReport projectID location response)).

(** [for _, x := range items { result += line x }] *)
Definition reportLines {A} (items : list A) (line : A -> string) : string :=
  rangeString items (fun _ x => line x).

(** [for k, v := range labels { result += line k v }] *)
Definition rangeLabels (w : World) (site : nat) (labels : gmap string string)
    (line : string -> string -> string) : string :=
  rangeString (rangeMap w site labels) (fun _ kv => line kv.1 kv.2).

(** The "Format the results" part of handleGetClusterInfo *)
Definition clusterReport (w : World) (cluster : ClusterInfo.Cluster) : string :=
  let addons := ClusterInfo.Addons cluster in
  let window := ClusterInfo.MaintenanceWindow cluster in
  "# GKE Cluster: " +:+ ClusterInfo.Name cluster +:+ nl +:+ nl
  +:+ "## Basic Information" +:+ nl +:+ nl
  +:+ "- **Location**: " +:+ ClusterInfo.Location cluster +:+ nl
  +:+ "- **Status**: " +:+ ClusterInfo.Status cluster +:+ nl
  +:+ "- **Node Count**: " +:+ GoFmt.d (ClusterInfo.NodeCount cluster) +:+ nl
  +:+ "- **Kubernetes Version**: " +:+ ClusterInfo.MasterVersion cluster
    +:+ " (master) / " +:+ ClusterInfo.NodeVersion cluster +:+ " (nodes)" +:+ nl
  +:+ "- **Endpoint**: " +:+ ClusterInfo.Endpoint cluster +:+ nl
  +:+ "- **Created**: " +:+ ClusterInfo.CreateTime cluster +:+ nl
  +:+ (if negb (empty (ClusterInfo.Description cluster))
       then "- **Description**: " +:+ ClusterInfo.Description cluster +:+ nl
       else "")
  +:+ nl +:+ "## Network Configuration" +:+ nl +:+ nl
  +:+ "- **Network**: " +:+ ClusterInfo.Network cluster +:+ nl
  +:+ "- **Subnetwork**: " +:+ ClusterInfo.Subnetwork cluster +:+ nl
  +:+ "- **Pod CIDR**: " +:+ ClusterInfo.ClusterIpv4Cidr cluster +:+ nl
  +:+ "- **Service CIDR**: " +:+ ClusterInfo.ServicesIpv4Cidr cluster +:+ nl
  +:+ nl +:+ "## Add-ons Configuration" +:+ nl +:+ nl
  +:+ "- **HTTP Load Balancing**: "
    +:+ boolToEnabledString (negb (ClusterInfo.HttpLoadBalancingDisabled addons)) +:+ nl
  +:+ "- **Horizontal Pod Autoscaling**: "
    +:+ boolToEnabledString (negb (ClusterInfo.HorizontalPodAutoscalingDisabled addons)) +:+ nl
  +:+ "- **Kubernetes Dashboard**: "
    +:+ boolToEnabledString (negb (ClusterInfo.KubernetesDashboardDisabled addons)) +:+ nl
  +:+ "- **Network Policy**: "
    +:+ boolToEnabledString (negb (ClusterInfo.NetworkPolicyConfigDisabled addons)) +:+ nl
  +:+ (if Nat.ltb 0 (length (ClusterInfo.Locations cluster)) then
         nl +:+ "## Node Locations" +:+ nl +:+ nl
         +:+ reportLines (ClusterInfo.Locations cluster) (fun loc => "- " +:+ loc +:+ nl)
       else "")
  +:+ (if Nat.ltb 0 (size (ClusterInfo.ResourceLabels cluster)) then
         nl +:+ "## Resource Labels" +:+ nl +:+ nl
         +:+ rangeLabels w 0 (ClusterInfo.ResourceLabels cluster) (fun k v =>
               "- **" +:+ k +:+ "**: " +:+ v +:+ nl)
       else "")
  +:+ (if negb (empty (ClusterInfo.StartTime window)) then
         nl +:+ "## Maintenance Window" +:+ nl +:+ nl
         +:+ "- **Start Time**: " +:+ ClusterInfo.StartTime window +:+ nl
         +:+ "- **Duration**: " +:+ ClusterInfo.Duration window +:+ nl
       else "").

(** handleGetClusterInfo handles the get_cluster_info tool request *)
Definition handleGetClusterInfo (request : CallToolRequest)
    (authHandler : auth.OAuthHandler) : M CallToolResult :=
  let '(projectID, ok) := asString (Arguments request !! "project_id") in
  returnIf (negb ok || empty projectID)
    (NewToolResultError "project_id must be a non-empty string") ;;;
  let '(location, ok) := asString (Arguments request !! "location") in
  returnIf (negb ok || empty location)
    (NewToolResultError "location must be a non-empty string") ;;;
  let '(clusterName, ok) := asString (Arguments request !! "cluster_name") in
  returnIf (negb ok || empty clusterName)
    (NewToolResultError "cluster_name must be a non-empty string") ;;;
  client <- try (auth.GetClient authHandler) (fun err =>
    NewToolResultError ("Error getting authenticated client: " +:+ err)) ;;
  let apiURL :=
    gcpContainerBaseURL +:+ "/projects/" +:+ projectID +:+ "/locations/"
    +:+ location +:+ "/clusters/" +:+ clusterName in
  req <- try (NewRequestWithContext "GET" apiURL None) (fun err =>
    NewToolResultError ("Error creating request: " +:+ err)) ;;
  resp <- try (Do client req) (fun err =>
    NewToolResultError ("Error making request to Container API: " +:+ err)) ;;
  returnIf (negb (http.StatusCode resp =? http.StatusOK))
    (NewToolResultError ("Error from Container API: " +:+ http.Status resp)) ;;;
  cluster <- try (pure (http.asCluster (http.RespBody resp))) (fun err =>
    NewToolResultError ("Error parsing response: " +:+ err)) ;;
  w <- world ;;
  pure (NewToolResultText (clusterReport w cluster)).

(** One node pool of the list of handleListNodePools; its labels are the
    [i]-th range over a map of the call. *)
Definition nodePoolEntry (w : World) (i : nat) (pool : NodePools.NodePool) : string :=
  let config := NodePools.Cfg pool in
  let autoscaling := NodePools.Scaling pool in
  "## " +:+ GoFmt.d (Z.of_nat i + 1) +:+ ". Node Pool: "
    +:+ NodePools.Name pool +:+ nl +:+ nl
  +:+ "- **Status**: " +:+ NodePools.Status pool +:+ nl
  +:+ "- **Version**: " +:+ NodePools.Version pool +:+ nl
  +:+ "- **Initial Node Count**: "
    +:+ GoFmt.d (NodePools.InitialNodeCount pool) +:+ nl
  +:+ nl +:+ "### Machine Configuration" +:+ nl +:+ nl
  +:+ "- **Machine Type**: " +:+ NodePools.MachineType config +:+ nl
  +:+ "- **Disk Size**: " +:+ GoFmt.d (NodePools.DiskSizeGb config) +:+ " GB" +:+ nl
  +:+ "- **Preemptible**: " +:+ GoFmt.t (NodePools.Preemptible config) +:+ nl
  +:+ "- **Service Account**: " +:+ NodePools.ServiceAccount config +:+ nl
  +:+ (if Nat.ltb 0 (length (NodePools.OauthScopes config)) then
         "- **OAuth Scopes**:" +:+ nl
         +:+ reportLines (NodePools.OauthScopes config) (fun scope =>
               "  - " +:+ scope +:+ nl)
       else "")
  +:+ (if Nat.ltb 0 (size (NodePools.Labels config)) then
         "- **Labels**:" +:+ nl
         +:+ rangeLabels w i (NodePools.Labels config) (fun k v =>
               "  - " +:+ k +:+ ": " +:+ v +:+ nl)
       else "")
  +:+ nl +:+ "### Autoscaling" +:+ nl +:+ nl
  +:+ (if NodePools.Enabled autoscaling then
         "- **Enabled**: Yes" +:+ nl
         +:+ "- **Min Nodes**: " +:+ GoFmt.d (NodePools.MinNodeCount autoscaling) +:+ nl
         +:+ "- **Max Nodes**: " +:+ GoFmt.d (NodePools.MaxNodeCount autoscaling) +:+ nl
       else "- **Enabled**: No" +:+ nl)
  +:+ nl +:+ "### Management" +:+ nl +:+ nl
  +:+ "- **Auto Upgrade**: " +:+ GoFmt.t (NodePools.AutoUpgrade (NodePools.Mgmt pool)) +:+ nl
  +:+ "- **Auto Repair**: " +:+ GoFmt.t (NodePools.AutoRepair (NodePools.Mgmt pool)) +:+ nl
  +:+ (if Nat.ltb 0 (length (NodePools.Locations pool)) then
         nl +:+ "### Locations" +:+ nl +:+ nl
         +:+ reportLines (NodePools.Locations pool) (fun loc => "- " +:+ loc +:+ nl)
       else "")
  +:+ nl.

(** The "Format the results" part of handleListNodePools *)
Definition nodePoolsReport (w : World) (clusterName location : string)
    (response : NodePools.Response) : string :=
  let pools := NodePools.Pools response in
  if Nat.eqb (length pools) 0 then
    "No node pools found in cluster " +:+ clusterName
    +:+ " in location " +:+ location +:+ "."
  else
    "# Node Pools in Cluster " +:+ clusterName +:+ nl +:+ nl
    +:+ rangeString pools (nodePoolEntry w).

(** handleListNodePools handles the list_node_pools tool request *)
Definition handleListNodePools (request : CallToolRequest)
    (authHandler : auth.OAuthHandler) : M CallToolResult :=
  let '(projectID, ok) := asString (Arguments request !! "project_id") in
  returnIf (negb ok || empty projectID)
    (NewToolResultError "project_id must be a non-empty string") ;;;
  let '(location, ok) := asString (Arguments request !! "location") in
  returnIf (negb ok || empty location)
    (NewToolResultError "location must be a non-empty string") ;;;
  let '(clusterName, ok) := asString (Arguments request !! "cluster_name") in
  returnIf (negb ok || empty clusterName)
    (NewToolResultError "cluster_name must be a non-empty string") ;;;
  client <- try (auth.GetClient authHandler) (fun err =>
    NewToolResultError ("Error getting authenticated client: " +:+ err)) ;;
  let apiURL :=
    gcpContainerBaseURL +:+ "/projects/" +:+ projectID +:+ "/locations/"
    +:+ location +:+ "/clusters/" +:+ clusterName +:+ "/nodePools" in
  req <- try (NewRequestWithContext "GET" apiURL None) (fun err =>
    NewToolResultError ("Error creating request: " +:+ err)) ;;
  resp <- try (Do client req) (fun err =>
    NewToolResultError ("Error making request to Container API: " +:+ err)) ;;
  returnIf (negb (http.StatusCode resp =? http.StatusOK))
    (NewToolResultError ("Error from Container API: " +:+ http.Status resp)) ;;;
  response <- try (pure (http.asNodePools (http.RespBody resp))) (fun err =>
    NewToolResultError ("Error parsing response: " +:+ err)) ;;
  w <- world ;;
  pure (NewToolResultText (nodePoolsReport w clusterName location response)).


(** ** Documentation tools *)

Record SearchResult := {
  Title : string; Link : string; Snippet : string; DisplayLink : string
}.

(** [x, ok := args[key].(float64); ok && x > 0], else the default *)
Definition numberOr (request : CallToolRequest) (key : string) (default : float64)
  : float64 :=
  let '(val, ok) := asFloat64 (Arguments request !! key) in
  if ok && GoFloat.gt0 val then val else default.

(** [for i, x := range xs { if stop i { break }; result += body i x }] *)
Fixpoint rangeBreakFrom {A} (i : nat) (xs : list A) (stop : nat -> bool)
    (body : nat -> A -> string) : string :=
  match xs with
  | [] => ""
  | x :: r => if stop i then "" else body i x +:+ rangeBreakFrom (S i) r stop body
  end.

Definition matchesQuery (queryLower : string) (result : SearchResult) : bool :=
  GoStrings.Contains (GoStrings.ToLower (Title result)) queryLower
  || GoStrings.Contains (GoStrings.ToLower (Snippet result)) queryLower.

Definition searchEntries (filteredResults : list SearchResult) (maxResults : float64)
  : string :=
  rangeBreakFrom 0 filteredResults
    (fun i => GoFloat.int maxResults <=? Z.of_nat i)
    (fun i searchResult =>
       "## " +:+ GoFmt.d (Z.of_nat i + 1) +:+ ". " +:+ Title searchResult +:+ nl
       +:+ "**URL**: [" +:+ Link searchResult +:+ "](" +:+ Link searchResult +:+ ")"
         +:+ nl +:+ nl
       +:+ Snippet searchResult +:+ nl +:+ nl).

(** The filtering and "Format the results" part shared by the two search
    handlers, which differ in the simulated results, the heading and the
    closing line. *)
Definition searchReport (simulatedResults : list SearchResult)
    (heading footer query : string) (maxResults : float64) : string :=
  let queryLower := GoStrings.ToLower query in
  let filteredResults := List.filter (matchesQuery queryLower) simulatedResults in
  if Nat.eqb (length filteredResults) 0 then
    "No documentation found for query: " +:+ query
  else
    heading +:+ quote +:+ query +:+ quote +:+ nl +:+ nl
    +:+ searchEntries filteredResults maxResults
    +:+ footer.

Definition gcpSimulatedResults : list SearchResult := [
  {| Title := "Error Reporting | Google Cloud";
     Link := "https://cloud.google.com/error-reporting";
     Snippet := "Error Reporting counts, analyzes, and aggregates the crashes in your running cloud services.";
     DisplayLink := "cloud.google.com" |};
  {| Title := "Monitoring | Google Cloud";
     Link := "https://cloud.google.com/monitoring";
     Snippet := "Gain visibility into the performance, availability, and health of your applications and infrastructure.";
     DisplayLink := "cloud.google.com" |};
  {| Title := "Logging | Google Cloud";
     Link := "https://cloud.google.com/logging";
     Snippet := "Logging allows you to store, search, analyze, monitor, and alert on log data and events from Google Cloud and Amazon Web Services.";
     DisplayLink := "cloud.google.com" |};
  {| Title := "Kubernetes Engine | Google Cloud";
     Link := "https://cloud.google.com/kubernetes-engine";
     Snippet := "Google Kubernetes Engine (GKE) is a managed, production-ready environment for running containerized applications.";
     DisplayLink := "cloud.google.com" |};
  {| Title := "Troubleshooting GKE | Google Cloud";
     Link := "https://cloud.google.com/kubernetes-engine/docs/troubleshooting";
     Snippet := "This page provides troubleshooting information for common issues that you might encounter when using Google Kubernetes Engine.";
     DisplayLink := "cloud.google.com" |}
].

(** handleSearchGCPDocs handles the search_gcp_docs tool request *)
Definition handleSearchGCPDocs (request : CallToolRequest) : M CallToolResult :=
  let '(query, ok) := asString (Arguments request !! "query") in
  returnIf (negb ok || empty query)
    (NewToolResultError "query must be a non-empty string") ;;;
  let maxResults := numberOr request "max_results" (GoFloat.ofZ 5) in
  pure (NewToolResultText (searchReport gcpSimulatedResults
    "# Google Cloud Documentation Search Results for "
    "For more results, visit the [Google Cloud documentation](https://cloud.google.com/docs)."
    query maxResults)).

Definition k8sSnippet : string :=
  "This guide is to help users debug applications that are deployed into Kubernetes and not behaving correctly.".

Definition k8sSimulatedResults : list SearchResult := [
  {| Title := "Troubleshooting Clusters | Kubernetes";
     Link := "https://kubernetes.io/docs/tasks/debug/debug-cluster/";
     Snippet := k8sSnippet; DisplayLink := "kubernetes.io" |};
  {| Title := "Troubleshooting Applications | Kubernetes";
     Link := "https://kubernetes.io/docs/tasks/debug/debug-application/";
     Snippet := k8sSnippet; DisplayLink := "kubernetes.io" |};
  {| Title := "Debugging Pods | Kubernetes";
     Link := "https://kubernetes.io/docs/tasks/debug/debug-application/debug-pods/";
     Snippet := k8sSnippet; DisplayLink := "kubernetes.io" |};
  {| Title := "Debugging Services | Kubernetes";
     Link := "https://kubernetes.io/docs/tasks/debug/debug-application/debug-service/";
     Snippet := k8sSnippet; DisplayLink := "kubernetes.io" |};
  {| Title := "Debugging Init Containers | Kubernetes";
     Link := "https://kubernetes.io/docs/tasks/debug/debug-application/debug-init-containers/";
     Snippet := k8sSnippet; DisplayLink := "kubernetes.io" |}
].

(** handleSearchK8sDocs handles the search_k8s_docs tool request *)
Definition handleSearchK8sDocs (request : CallToolRequest) : M CallToolResult :=
  let '(query, ok) := asString (Arguments request !! "query") in
  returnIf (negb ok || empty query)
    (NewToolResultError "query must be a non-empty string") ;;;
  let maxResults := numberOr request "max_results" (GoFloat.ofZ 5) in
  pure (NewToolResultText (searchReport k8sSimulatedResults
    "# Kubernetes Documentation Search Results for "
    "For more results, visit the [Kubernetes documentation](https://kubernetes.io/docs/)."
    query maxResults)).

Record ErrorDoc := {
  DocTitle : string; DocDescription : string; Solution : string;
  References : list string
}.

Definition errorDocs : gmap string ErrorDoc := list_to_map [
  ("RESOURCE_EXHAUSTED",
   {| DocTitle := "Resource Exhausted Error";
      DocDescription := "This error occurs when a resource quota has been exceeded. It typically happens when you've reached the limit for a particular resource in your Google Cloud project.";
      Solution := "1. Check your current quota usage in the Google Cloud Console." +:+ nl
        +:+ "2. Request a quota increase if needed." +:+ nl
        +:+ "3. Optimize your resource usage to stay within limits.";
      References := ["https://cloud.google.com/docs/quota";
                     "https://cloud.google.com/compute/docs/resource-quotas"] |});
  ("PERMISSION_DENIED",
   {| DocTitle := "Permission Denied Error";
      DocDescription := "This error occurs when the authenticated user does not have sufficient permissions to perform the requested operation.";
      Solution := "1. Check the IAM permissions for the user or service account." +:+ nl
        +:+ "2. Grant the necessary roles or permissions." +:+ nl
        +:+ "3. Verify that the service account has the required scopes.";
      References := ["https://cloud.google.com/iam/docs/overview";
                     "https://cloud.google.com/iam/docs/troubleshooting-access"] |});
  ("NOT_FOUND",
   {| DocTitle := "Resource Not Found Error";
      DocDescription := "This error occurs when the requested resource does not exist or is not accessible.";
      Solution := "1. Verify that the resource name or ID is correct." +:+ nl
        +:+ "2. Check if the resource exists in the specified project and region." +:+ nl
        +:+ "3. Ensure that the resource hasn't been deleted.";
      References := ["https://cloud.google.com/apis/design/errors"] |});
  ("FAILED_PRECONDITION",
   {| DocTitle := "Failed Precondition Error";
      DocDescription := "This error occurs when the system is not in a state required for the operation's execution.";
      Solution := "1. Check the current state of the resource." +:+ nl
        +:+ "2. Ensure all prerequisites for the operation are met." +:+ nl
        +:+ "3. Retry the operation after resolving any conflicts.";
      References := ["https://cloud.google.com/apis/design/errors"] |});
  ("DEADLINE_EXCEEDED",
   {| DocTitle := "Deadline Exceeded Error";
      DocDescription := "This error occurs when the operation took longer than the deadline specified by the client or the system.";
      Solution := "1. Increase the timeout for the operation if possible." +:+ nl
        +:+ "2. Break down large operations into smaller ones." +:+ nl
        +:+ "3. Check for performance issues in your application.";
      References := ["https://cloud.google.com/apis/design/errors"] |})
].

(** [strings.Contains(strings.ToLower(doc.Description), errorMessageLower)] *)
Definition describes (errorMessageLower : string) (entry : string * ErrorDoc) : bool :=
  GoStrings.Contains (GoStrings.ToLower (DocDescription entry.2)) errorMessageLower.

(** The lookup of handleGetErrorDocs: by code first, then the first
    description, in the order of the range over the map, that contains
    the message. *)
Definition lookupErrorDoc (w : World) (code : string * bool) (msg : string * bool)
  : option ErrorDoc :=
  let byCode := if code.2 then errorDocs !! code.1 else None in
  match byCode with
  | Some doc => Some doc
  | None =>
      if msg.2 then
        let errorMessageLower := GoStrings.ToLower msg.1 in
        snd <$> List.find (describes errorMessageLower) (rangeMap w 0 errorDocs)
      else None
  end.

(** The lookup and "Format the results" part of handleGetErrorDocs *)
Definition errorDocReport (w : World) (errorCode : string) (hasErrorCode : bool)
    (errorMessage : string) (hasErrorMessage : bool) : string :=
  match lookupErrorDoc w (errorCode, hasErrorCode) (errorMessage, hasErrorMessage) with
  | None =>
      "No documentation found for the specified error."
      +:+ (if hasErrorCode then " Error code: " +:+ errorCode else "")
      +:+ (if hasErrorMessage then " Error message: " +:+ errorMessage else "")
      +:+ nl +:+ nl
      +:+ "Try searching the Google Cloud documentation or Kubernetes documentation for more information."
  | Some errorInfo =>
      "# " +:+ DocTitle errorInfo +:+ nl +:+ nl
      +:+ "## Description" +:+ nl +:+ nl +:+ DocDescription errorInfo +:+ nl +:+ nl
      +:+ "## Solution" +:+ nl +:+ nl +:+ Solution errorInfo +:+ nl +:+ nl
      +:+ (if Nat.ltb 0 (length (References errorInfo)) then
             "## References" +:+ nl +:+ nl
             +:+ reportLines (References errorInfo) (fun ref =>
                   "- [" +:+ ref +:+ "](" +:+ ref +:+ ")" +:+ nl)
           else "")
  end.

(** handleGetErrorDocs handles the get_error_docs tool request *)
Definition handleGetErrorDocs (request : CallToolRequest) : M CallToolResult :=
  let '(errorCode, hasErrorCode) := asString (Arguments request !! "error_code") in
  let '(errorMessage, hasErrorMessage) := asString (Arguments request !! "error_message") in
  returnIf (negb hasErrorCode && negb hasErrorMessage)
    (NewToolResultError "either error_code or error_message must be provided") ;;;
  w <- world ;;
  pure (NewToolResultText
    (errorDocReport w errorCode hasErrorCode errorMessage hasErrorMessage)).


(** ** Monitoring tools *)

Definition gcpMonitoringBaseURL : string := "https://monitoring.googleapis.com/v3".

(** formatTime formats a RFC3339 time string to a more readable format *)
Definition formatTime (timeStr : string) : string :=
  match GoTime.ParseRFC3339 timeStr with
  | None => timeStr
  | Some t => GoTime.FormatDateTime t
  end.

(** One row of the data point table of handleQueryMetrics *)
Definition pointRow (pd : Metrics.Point) : string :=
  let timeStr :=
    match GoTime.ParseRFC3339 (Metrics.EndTime (Metrics.Interval pd)) with
    | Some endTime => GoTime.FormatDateTime endTime
    | None => Metrics.EndTime (Metrics.Interval pd)
    end in
  let valueStr :=
    match Metrics.Values pd with
    | v0 :: _ =>
        if GoFloat.nonzero (Metrics.DoubleValue v0) then GoFmt.f 6 (Metrics.DoubleValue v0)
        else if negb (empty (Metrics.PvInt64Value v0)) then Metrics.PvInt64Value v0
        else if negb (empty (Metrics.PvStringValue v0)) then Metrics.PvStringValue v0
        else GoFmt.t (Metrics.PvBoolValue v0)
    | [] => "N/A"
    end in
  "| " +:+ timeStr +:+ " | " +:+ valueStr +:+ " |" +:+ nl.

(** One time series of the report of handleQueryMetrics *)
Definition timeSeriesBlock (labelKeys : list string) (i : nat) (ts : Metrics.TimeSeries)
  : string :=
  "## Time Series " +:+ GoFmt.d (Z.of_nat i + 1) +:+ nl +:+ nl
  +:+ "### Labels" +:+ nl +:+ nl
  +:+ rangeString (Metrics.LabelValues ts) (fun j lv =>
        match labelKeys !! j with
        | Some key =>
            let value :=
              if negb (empty (Metrics.StringValue lv)) then Metrics.StringValue lv
              else if negb (empty (Metrics.Int64Value lv)) then Metrics.Int64Value lv
              else GoFmt.t (Metrics.BoolValue lv) in
            "- **" +:+ key +:+ "**: " +:+ value +:+ nl
        | None => ""
        end)
  +:+ nl +:+ "### Data Points" +:+ nl +:+ nl
  +:+ (if Nat.eqb (length (Metrics.PointData ts)) 0 then
         "No data points available." +:+ nl
       else
         "| Time | Value |" +:+ nl
         +:+ "| ---- | ----- |" +:+ nl
         +:+ reportLines (Metrics.PointData ts) pointRow)
  +:+ nl.

(** The "Format the results" part of handleQueryMetrics *)
Definition metricsReport (metricType : string) (response : Metrics.Response) : string :=
  let series := Metrics.TimeSeriesData response in
  if Nat.eqb (length series) 0 then
    "No metrics data found for metric type " +:+ metricType
    +:+ " in the specified time range."
  else
    let labelKeys :=
      map Metrics.Key (Metrics.LabelDescriptors (Metrics.TimeSeriesDescriptor response)) in
    "# Metrics Data for " +:+ metricType +:+ nl +:+ nl
    +:+ rangeString series (timeSeriesBlock labelKeys).

(** handleQueryMetrics handles the query_metrics tool request *)
Definition handleQueryMetrics (request : CallToolRequest)
    (authHandler : auth.OAuthHandler) : M CallToolResult :=
  let '(projectID, ok) := asString (Arguments request !! "project_id") in
  returnIf (negb ok || empty projectID)
    (NewToolResultError "project_id must be a non-empty string") ;;;
  let '(metricType, ok) := asString (Arguments request !! "metric_type") in
  returnIf (negb ok || empty metricType)
    (NewToolResultError "metric_type must be a non-empty string") ;;;
  let '(filter, _) := asString (Arguments request !! "filter") in
  let timeRangeHours := numberOr request "time_range_hours" (GoFloat.ofZ 1) in
  let alignmentPeriodSeconds :=
    numberOr request "alignment_period_seconds" (GoFloat.ofZ 300) in
  client <- try (auth.GetClient authHandler) (fun err =>
    NewToolResultError ("Error getting authenticated client: " +:+ err)) ;;
  endTime <- Now ;;
  w <- world ;;
  let startTime := hoursBefore endTime timeRangeHours in
  let requestBody := JObject (
    [ ("metricDescriptor", JObject [("type", JString metricType)]);
      ("aggregation", JObject [
         ("alignmentPeriod", JString (GoFmt.f 0 alignmentPeriodSeconds +:+ "s"));
         ("perSeriesAligner", JString "ALIGN_MEAN");
         ("crossSeriesReducer", JString "REDUCE_MEAN") ]);
      ("interval", JObject [
         ("startTime", JString (GoTime.FormatRFC3339 (inLocal w startTime)));
         ("endTime", JString (GoTime.FormatRFC3339 (inLocal w endTime))) ]) ]
    ++ (if negb (empty filter) then [("filter", JString filter)] else []))%list in
  let apiURL := gcpMonitoringBaseURL +:+ "/projects/" +:+ projectID +:+ "/timeSeries:query" in
  req <- try (NewRequestWithContext "POST" apiURL (Some requestBody)) (fun err =>
    NewToolResultError ("Error creating request: " +:+ err)) ;;
  let req := HeaderSet req "Content-Type" "application/json" in
  resp <- try (Do client req) (fun err =>
    NewToolResultError ("Error making request to Monitoring API: " +:+ err)) ;;
  returnIf (negb (http.StatusCode resp =? http.StatusOK))
    (NewToolResultError ("Error from Monitoring API: " +:+ http.Status resp)) ;;;
  response <- try (pure (http.asMetrics (http.RespBody resp))) (fun err =>
    NewToolResultError ("Error parsing response: " +:+ err)) ;;
  pure (NewToolResultText (metricsReport metricType response)).

(** What handleListAlerts keeps of an alert policy *)
Record PolicyInfo := {
  PiDisplayName : string;
  PiDocumentation : string;
  PiConditions : gmap string string
}.

(** [policyMap]: later policies and conditions of the same name replace
    earlier ones. *)
Definition policyMapOf (policies : list Alerts.AlertPolicy) : gmap string PolicyInfo :=
  fold_left (fun policyMap policy =>
    <[ Alerts.Name policy :=
       {| PiDisplayName := Alerts.DisplayName policy;
          PiDocumentation := Alerts.DocumentationContent policy;
          PiConditions :=
            fold_left (fun conds condition =>
              <[ Alerts.CName condition := Alerts.CDisplayName condition ]> conds)
              (Alerts.Conditions policy) ∅ |} ]> policyMap)
    policies ∅.

Definition isOpen (incident : Alerts.Incident) : bool :=
  String.eqb (Alerts.State incident) "OPEN".

(** The block of one incident in the report of handleListAlerts *)
Definition incidentBlock (policyMap : gmap string PolicyInfo) (i : nat)
    (incident : Alerts.Incident) : string :=
  if negb (isOpen incident) then ""
  else
    let policyInfo := policyMap !! Alerts.PolicyName incident in
    let policyDisplayName :=
      match policyInfo with Some p => PiDisplayName p | None => "Unknown Policy" end in
    let documentation :=
      match policyInfo with Some p => PiDocumentation p | None => "" end in
    let conditionDisplayName :=
      match policyInfo with
      | Some p =>
          match PiConditions p !! Alerts.ConditionName incident with
          | Some condName => condName
          | None => "Unknown Condition"
          end
      | None => "Unknown Condition"
      end in
    "## " +:+ GoFmt.d (Z.of_nat i + 1) +:+ ". Alert: "
      +:+ Alerts.ResourceDisplayName incident +:+ nl +:+ nl
    +:+ "- **Policy**: " +:+ policyDisplayName +:+ nl
    +:+ "- **Condition**: " +:+ conditionDisplayName +:+ nl
    +:+ "- **Severity**: " +:+ Alerts.Severity incident +:+ nl
    +:+ "- **Started**: " +:+ formatTime (Alerts.StartTime incident) +:+ nl
    +:+ (if negb (empty (Alerts.Summary incident))
         then "- **Summary**: " +:+ Alerts.Summary incident +:+ nl else "")
    +:+ (if negb (empty documentation)
         then nl +:+ "### Documentation" +:+ nl +:+ nl +:+ documentation +:+ nl else "")
    +:+ nl.

(** The "Format the results" part of handleListAlerts *)
Definition alertsReport (projectID : string) (policiesResponse : Alerts.PoliciesResponse)
    (incidentsResponse : Alerts.IncidentsResponse) : string :=
  let policyMap := policyMapOf (Alerts.AlertPolicies policiesResponse) in
  let incidents := Alerts.Incidents incidentsResponse in
  let activeIncidents := length (List.filter isOpen incidents) in
  if Nat.eqb activeIncidents 0 then "No active alerts found."
  else
    "# Active Alerts in Project " +:+ projectID +:+ nl +:+ nl
    +:+ "Found " +:+ GoFmt.d (Z.of_nat activeIncidents) +:+ " active alerts:" +:+ nl +:+ nl
    +:+ rangeString incidents (incidentBlock policyMap)
    +:+ "## Recommended Actions" +:+ nl +:+ nl
    +:+ "1. Check the affected resources for any recent changes or deployments" +:+ nl
    +:+ "2. Review logs around the time the alert was triggered" +:+ nl
    +:+ "3. Check for related alerts that might indicate a broader issue" +:+ nl
    +:+ "4. Verify resource utilization and performance metrics" +:+ nl
    +:+ "5. Consider scaling resources if the alert is related to resource constraints" +:+ nl.

(** handleListAlerts handles the list_alerts tool request *)
Definition handleListAlerts (request : CallToolRequest)
    (authHandler : auth.OAuthHandler) : M CallToolResult :=
  let '(projectID, ok) := asString (Arguments request !! "project_id") in
  returnIf (negb ok || empty projectID)
    (NewToolResultError "project_id must be a non-empty string") ;;;
  let '(filter, _) := asString (Arguments request !! "filter") in
  client <- try (auth.GetClient authHandler) (fun err =>
    NewToolResultError ("Error getting authenticated client: " +:+ err)) ;;
  let apiURL :=
    gcpMonitoringBaseURL +:+ "/projects/" +:+ projectID +:+ "/alertPolicies"
    +:+ (if negb (empty filter) then "?filter=" +:+ filter else "") in
  req <- try (NewRequestWithContext "GET" apiURL None) (fun err =>
    NewToolResultError ("Error creating request: " +:+ err)) ;;
  resp <- try (Do client req) (fun err =>
    NewToolResultError ("Error making request to Monitoring API: " +:+ err)) ;;
  returnIf (negb (http.StatusCode resp =? http.StatusOK))
    (NewToolResultError ("Error from Monitoring API: " +:+ http.Status resp)) ;;;
  policiesResponse <- try (pure (http.asPolicies (http.RespBody resp))) (fun err =>
    NewToolResultError ("Error parsing alert policies response: " +:+ err)) ;;
  let incidentsURL := gcpMonitoringBaseURL +:+ "/projects/" +:+ projectID +:+ "/incidents" in
  incidentsReq <- try (NewRequestWithContext "GET" incidentsURL None) (fun err =>
    NewToolResultError ("Error creating incidents request: " +:+ err)) ;;
  incidentsResp <- try (Do client incidentsReq) (fun err =>
    NewToolResultError ("Error making request to Monitoring API for incidents: " +:+ err)) ;;
  returnIf (negb (http.StatusCode incidentsResp =? http.StatusOK))
    (NewToolResultError ("Error from Monitoring API for incidents: "
                         +:+ http.Status incidentsResp)) ;;;
  incidentsResponse <- try (pure (http.asIncidents (http.RespBody incidentsResp)))
    (fun err => NewToolResultError ("Error parsing incidents response: " +:+ err)) ;;
  pure (NewToolResultText (alertsReport projectID policiesResponse incidentsResponse)).


(** ** GCP issues tools *)

Import errorreportingpb.

(** [for i, x := range xs { result += body i x }] with a body that may
    panic ([None]) *)
Fixpoint rangePanicFrom {A} (i : nat) (xs : list A) (body : nat -> A -> option string)
  : option string :=
  match xs with
  | [] => Some ""
  | x :: r =>
      b ← body i x;
      rest ← rangePanicFrom (S i) r body;
      Some (b +:+ rest)
  end.

Definition rfc3339 (ts : Timestamp) : string := GoTime.FormatRFC3339 (AsTime ts).

(** One entry of the list of handleListActiveIssues; [stat.Group.Name]
    dereferences a pointer that is nil when the group is not set. *)
Definition issueEntry (i : nat) (stat : ErrorGroupStats) : option string :=
  group ← Group stat;
  let groupID := GoStrings.lastSegment (GroupName group) "" in
  Some (
    GoFmt.d (Z.of_nat i + 1) +:+ ". Error Group: " +:+ groupID +:+ nl
    +:+ "   Count: " +:+ GoFmt.d (Count stat) +:+ " occurrences" +:+ nl
    +:+ match FirstSeenTime stat with
        | Some firstSeen => "   First seen: " +:+ rfc3339 firstSeen +:+ nl
        | None => ""
        end
    +:+ match LastSeenTime stat with
        | Some lastSeen => "   Last seen: " +:+ rfc3339 lastSeen +:+ nl
        | None => ""
        end
    +:+ (if Nat.ltb 0 (length (AffectedServices stat)) then
           "   Affected services:" +:+ nl
           +:+ reportLines (AffectedServices stat) (fun svc =>
                 "     - " +:+ Service svc +:+ " (version: " +:+ Version svc +:+ ")" +:+ nl)
         else "")
    +:+ nl).

(** The "Format the results" part of handleListActiveIssues; [None] when
    it panics *)
Definition issuesReport (projectID : string) (errorGroupStats : list ErrorGroupStats)
  : option string :=
  if Nat.eqb (length errorGroupStats) 0 then
    Some "No active issues found in the specified time range."
  else
    entries ← rangePanicFrom 0 errorGroupStats issueEntry;
    Some (
      "Found " +:+ GoFmt.d (Z.of_nat (length errorGroupStats))
      +:+ " active issues in project " +:+ projectID +:+ ":" +:+ nl +:+ nl
      +:+ entries
      +:+ "To get more details about a specific error group, use the get_issue_details tool.").

(** handleListActiveIssues handles the list_active_issues tool request *)
Definition handleListActiveIssues (request : CallToolRequest)
    (authHandler : auth.OAuthHandler) : M CallToolResult :=
  let '(projectID, ok) := asString (Arguments request !! "project_id") in
  returnIf (negb ok || empty projectID)
    (NewToolResultError "project_id must be a non-empty string") ;;;
  (* the reading of time_range_hours is commented out in the source *)
  let maxResults :=
    let '(val, ok) := asFloat64 (Arguments request !! "max_results") in
    if ok && GoFloat.gt0 val then GoFloat.int32 val else 10 in
  opts <- try (auth.GetClientOptions authHandler) (fun err =>
    NewToolResultError ("Error getting client options: " +:+ err)) ;;
  client <- try (errorreporting.NewErrorStatsClient opts) (fun err =>
    NewToolResultError ("Error creating Error Reporting client: " +:+ err)) ;;
  let req := {|
    ProjectName := "projects/" +:+ projectID;
    TimeRangePeriod := PERIOD_1_DAY;
    PageSize := maxResults;
    Alignment := ALIGNMENT_EQUAL_ROUNDED |} in
  errorGroupStats <- try (errorreporting.ListGroupStats client req) (fun err =>
    NewToolResultError ("Error iterating through error groups: " +:+ err)) ;;
  match issuesReport projectID errorGroupStats with
  | None => panic "runtime error: invalid memory address or nil pointer dereference"
  | Some result => pure (NewToolResultText result)
  end.

(** One event of the report of handleGetIssueDetails *)
Definition eventBlock (i : nat) (event : ErrorEvent) : string :=
  "#### Event " +:+ GoFmt.d (Z.of_nat i + 1) +:+ nl
  +:+ match EventTime event with
      | Some eventTime => "- Time: " +:+ rfc3339 eventTime +:+ nl
      | None => ""
      end
  +:+ match SvcContext event with
      | Some sc =>
          "- Service: " +:+ Service sc +:+ " (version: " +:+ Version sc +:+ ")" +:+ nl
      | None => ""
      end
  +:+ match Context event ≫= ReportLocation with
      | Some loc =>
          "- Location: " +:+ FilePath loc +:+ ":" +:+ GoFmt.d (LineNumber loc)
          +:+ " in " +:+ FunctionName loc +:+ nl
      | None => ""
      end
  +:+ match Context event ≫= HttpRequest with
      | Some hr =>
          "- Request: " +:+ Method hr +:+ " " +:+ Url hr +:+ nl
          +:+ (if negb (empty (RemoteIp hr))
               then "  - IP: " +:+ RemoteIp hr +:+ nl else "")
          +:+ (if negb (empty (UserAgent hr))
               then "  - User-Agent: " +:+ UserAgent hr +:+ nl else "")
          +:+ (if negb (empty (Referrer hr))
               then "  - Referrer: " +:+ Referrer hr +:+ nl else "")
      | None => ""
      end
  +:+ (if negb (empty (Message event))
       then "- Error Message:" +:+ nl +:+ "```" +:+ nl +:+ Message event +:+ nl
            +:+ "```" +:+ nl
       else "")
  +:+ nl.

(** The "Format the results" part of handleGetIssueDetails *)
Definition issueDetailsReport (errorGroupID : string) (errorEvents : list ErrorEvent)
  : string :=
  "## Error Group: " +:+ errorGroupID +:+ nl +:+ nl
  +:+ "### Recent Error Events" +:+ nl +:+ nl
  +:+ (if Nat.eqb (length errorEvents) 0 then "No recent error events found." +:+ nl
       else rangeString errorEvents eventBlock)
  +:+ "### Potential Causes and Solutions" +:+ nl +:+ nl
  +:+ "1. Check the error messages and stack traces for clues about the root cause." +:+ nl
  +:+ "2. Look for patterns in the affected services and versions." +:+ nl
  +:+ "3. Check recent deployments or changes to affected services." +:+ nl
  +:+ "4. Examine logs around the time of the errors for related issues." +:+ nl
  +:+ "5. Consider temporary mitigations like rolling back to a previous version if errors persist." +:+ nl.

(** handleGetIssueDetails handles the get_issue_details tool request *)
Definition handleGetIssueDetails (request : CallToolRequest)
    (authHandler : auth.OAuthHandler) : M CallToolResult :=
  let '(projectID, ok) := asString (Arguments request !! "project_id") in
  returnIf (negb ok || empty projectID)
    (NewToolResultError "project_id must be a non-empty string") ;;;
  let '(errorGroupID, ok) := asString (Arguments request !! "error_group_id") in
  returnIf (negb ok || empty errorGroupID)
    (NewToolResultError "error_group_id must be a non-empty string") ;;;
  opts <- try (auth.GetClientOptions authHandler) (fun err =>
    NewToolResultError ("Error getting client options: " +:+ err)) ;;
  client <- try (errorreporting.NewErrorStatsClient opts) (fun err =>
    NewToolResultError ("Error creating Error Reporting client: " +:+ err)) ;;
  let errorsRequest := {|
    EvProjectName := "projects/" +:+ projectID;
    GroupId := errorGroupID;
    EvPageSize := 10 |} in
  errorEvents <- try (errorreporting.ListEvents client errorsRequest) (fun err =>
    NewToolResultError ("Error iterating through error events: " +:+ err)) ;;
  pure (NewToolResultText (issueDetailsReport errorGroupID errorEvents)).


(** ** Logging tools *)

Definition gcpLoggingBaseURL : string := "https://logging.googleapis.com/v2".

Definition tab : string := String (ascii_of_nat 9) EmptyString.

(** The request body of both logging handlers *)
Definition entriesListBody (projectID filter : string) (maxResults : float64) : Json :=
  JObject [
    ("resourceNames", JArray [JString ("projects/" +:+ projectID)]);
    ("filter", JString filter);
    ("orderBy", JString "timestamp desc");
    ("pageSize", JInt (GoFloat.int maxResults)) ].

Definition timeRangeClause (w : World) (startTime endTime : Z) : string :=
  " AND timestamp >= " +:+ quote +:+ GoTime.FormatRFC3339 (inLocal w startTime) +:+ quote
  +:+ " AND timestamp <= " +:+ quote +:+ GoTime.FormatRFC3339 (inLocal w endTime) +:+ quote.

(** One entry of the report of handleQueryLogs; the two label maps are
    the range statements [2i] and [2i+1] of the call. *)
Definition logEntryBlock (w : World) (i : nat) (entry : Logs.Entry) : string :=
  "### Log Entry " +:+ GoFmt.d (Z.of_nat i + 1) +:+ nl
  +:+ "- **Timestamp**: " +:+ Logs.Timestamp entry +:+ nl
  +:+ "- **Severity**: " +:+ Logs.Severity entry +:+ nl
  +:+ "- **Log Name**: " +:+ Logs.LogName entry +:+ nl
  +:+ "- **Resource Type**: " +:+ Logs.Type_ (Logs.Res entry) +:+ nl
  +:+ (if Nat.ltb 0 (size (Logs.RLabels (Logs.Res entry))) then
         "- **Resource Labels**:" +:+ nl
         +:+ rangeLabels w (2 * i) (Logs.RLabels (Logs.Res entry)) (fun k v =>
               "  - " +:+ k +:+ ": " +:+ v +:+ nl)
       else "")
  +:+ (if Nat.ltb 0 (size (Logs.Labels entry)) then
         "- **Labels**:" +:+ nl
         +:+ rangeLabels w (2 * i + 1) (Logs.Labels entry) (fun k v =>
               "  - " +:+ k +:+ ": " +:+ v +:+ nl)
       else "")
  +:+ "- **Payload**:" +:+ nl
  +:+ (if negb (empty (Logs.TextPayload entry)) then
         "```" +:+ nl +:+ Logs.TextPayload entry +:+ nl +:+ "```" +:+ nl
       else
         match Logs.Json entry with
         | Some payload =>
             match MarshalIndent payload with
             | inl _ => "Error formatting JSON payload" +:+ nl
             | inr jsonBytes => "```json" +:+ nl +:+ jsonBytes +:+ nl +:+ "```" +:+ nl
             end
         | None => "No payload" +:+ nl
         end)
  +:+ nl.

(** The "Format the results" part of handleQueryLogs *)
Definition logsReport (w : World) (response : Logs.Response) : string :=
  let entries := Logs.Entries response in
  if Nat.eqb (length entries) 0 then "No logs found matching the filter criteria."
  else
    "Found " +:+ GoFmt.d (Z.of_nat (length entries))
    +:+ " log entries matching the filter criteria:" +:+ nl +:+ nl
    +:+ rangeString entries (logEntryBlock w)
    +:+ (if negb (empty (Logs.NextPageToken response)) then
           "Note: There are more log entries available. Refine your filter or increase max_results to see more." +:+ nl
         else "").

(** handleQueryLogs handles the query_logs tool request *)
Definition handleQueryLogs (request : CallToolRequest)
    (authHandler : auth.OAuthHandler) : M CallToolResult :=
  let '(projectID, ok) := asString (Arguments request !! "project_id") in
  returnIf (negb ok || empty projectID)
    (NewToolResultError "project_id must be a non-empty string") ;;;
  let '(filter, ok) := asString (Arguments request !! "filter") in
  returnIf (negb ok || empty filter)
    (NewToolResultError "filter must be a non-empty string") ;;;
  let timeRangeHours := numberOr request "time_range_hours" (GoFloat.ofZ 1) in
  let maxResults := numberOr request "max_results" (GoFloat.ofZ 50) in
  client <- try (auth.GetClient authHandler) (fun err =>
    NewToolResultError ("Error getting authenticated client: " +:+ err)) ;;
  endTime <- Now ;;
  w <- world ;;
  let startTime := hoursBefore endTime timeRangeHours in
  let filter :=
    if negb (GoStrings.Contains filter "timestamp")
    then filter +:+ timeRangeClause w startTime endTime
    else filter in
  let requestBody := entriesListBody projectID filter maxResults in
  let apiURL := gcpLoggingBaseURL +:+ "/entries:list" in
  req <- try (NewRequestWithContext "POST" apiURL (Some requestBody)) (fun err =>
    NewToolResultError ("Error creating request: " +:+ err)) ;;
  let req := HeaderSet req "Content-Type" "application/json" in
  resp <- try (Do client req) (fun err =>
    NewToolResultError ("Error making request to Logging API: " +:+ err)) ;;
  returnIf (negb (http.StatusCode resp =? http.StatusOK))
    (NewToolResultError ("Error from Logging API: " +:+ http.Status resp)) ;;;
  response <- try (pure (http.asLogs (http.RespBody resp))) (fun err =>
    NewToolResultError ("Error parsing response: " +:+ err)) ;;
  pure (NewToolResultText (logsReport w response)).

(** [labels["container_name"]]: the empty string when the key is absent *)
Definition containerOf (entry : PodLogs.Entry) : string :=
  default "" (PodLogs.ResourceLabels entry !! "container_name").

(** One line of the log of handleGetPodLogs *)
Definition podLogLine (containerName : string) (entry : PodLogs.Entry) : string :=
  let timestamp :=
    match GoTime.ParseRFC3339 (PodLogs.Timestamp entry) with
    | Some t => GoTime.FormatDateTime t
    | None => PodLogs.Timestamp entry
    end in
  let entryContainer := containerOf entry in
  let logLine :=
    if negb (empty (PodLogs.TextPayload entry)) then PodLogs.TextPayload entry
    else
      match PodLogs.Json entry with
      | Some payload =>
          match message payload with
          | Some msg => msg
          | None =>
              match Marshal payload with
              | inr jsonBytes => jsonBytes
              | inl _ => "[complex json payload]"
              end
          end
      | None => ""
      end in
  if empty containerName
  then "[" +:+ timestamp +:+ "] [" +:+ entryContainer +:+ "] " +:+ logLine +:+ nl
  else "[" +:+ timestamp +:+ "] " +:+ logLine +:+ nl.

(** The "Format the results" part of handleGetPodLogs *)
Definition podLogsReport (podName namespace containerName : string)
    (timeRangeHours : float64) (response : PodLogs.Response) : string :=
  let entries := PodLogs.Entries response in
  match entries with
  | [] => "No logs found for pod " +:+ podName +:+ " in namespace " +:+ namespace +:+ "."
  | first :: _ =>
      let containerName :=
        if empty containerName then containerOf first else containerName in
      "## Logs for pod " +:+ podName
      +:+ (if negb (empty containerName) then ", container " +:+ containerName else "")
      +:+ " in namespace " +:+ namespace +:+ nl +:+ nl
      +:+ "Found " +:+ GoFmt.d (Z.of_nat (length entries)) +:+ " log entries in the last "
        +:+ GoFmt.f 1 timeRangeHours +:+ " hours:" +:+ nl +:+ nl
      +:+ "```" +:+ nl
      +:+ reportLines (rev entries) (podLogLine containerName)
      +:+ "```" +:+ nl +:+ nl
      +:+ (if negb (empty (PodLogs.NextPageToken response)) then
             "Note: There are more log entries available. Increase time_range_hours or max_results to see more." +:+ nl
           else "")
  end.

(** handleGetPodLogs handles the get_pod_logs tool request *)
Definition handleGetPodLogs (request : CallToolRequest)
    (authHandler : auth.OAuthHandler) : M CallToolResult :=
  let '(projectID, ok) := asString (Arguments request !! "project_id") in
  returnIf (negb ok || empty projectID)
    (NewToolResultError "project_id must be a non-empty string") ;;;
  let '(location, ok) := asString (Arguments request !! "location") in
  returnIf (negb ok || empty location)
    (NewToolResultError "location must be a non-empty string") ;;;
  let '(clusterName, ok) := asString (Arguments request !! "cluster_name") in
  returnIf (negb ok || empty clusterName)
    (NewToolResultError "cluster_name must be a non-empty string") ;;;
  let '(namespace, ok) := asString (Arguments request !! "namespace") in
  returnIf (negb ok || empty namespace)
    (NewToolResultError "namespace must be a non-empty string") ;;;
  let '(podName, ok) := asString (Arguments request !! "pod_name") in
  returnIf (negb ok || empty podName)
    (NewToolResultError "pod_name must be a non-empty string") ;;;
  let '(containerName, _) := asString (Arguments request !! "container_name") in
  let timeRangeHours := numberOr request "time_range_hours" (GoFloat.ofZ 1) in
  let maxResults := numberOr request "max_results" (GoFloat.ofZ 100) in
  client <- try (auth.GetClient authHandler) (fun err =>
    NewToolResultError ("Error getting authenticated client: " +:+ err)) ;;
  endTime <- Now ;;
  w <- world ;;
  let startTime := hoursBefore endTime timeRangeHours in
  let filter :=
    "resource.type=" +:+ quote +:+ "k8s_container" +:+ quote +:+ nl
    +:+ tab +:+ tab +:+ "AND resource.labels.project_id=" +:+ quote +:+ projectID +:+ quote +:+ nl
    +:+ tab +:+ tab +:+ "AND resource.labels.location=" +:+ quote +:+ location +:+ quote +:+ nl
    +:+ tab +:+ tab +:+ "AND resource.labels.cluster_name=" +:+ quote +:+ clusterName +:+ quote +:+ nl
    +:+ tab +:+ tab +:+ "AND resource.labels.namespace_name=" +:+ quote +:+ namespace +:+ quote +:+ nl
    +:+ tab +:+ tab +:+ "AND resource.labels.pod_name=" +:+ quote +:+ podName +:+ quote
    +:+ (if negb (empty containerName)
         then " AND resource.labels.container_name=" +:+ quote +:+ containerName +:+ quote
         else "")
    +:+ timeRangeClause w startTime endTime in
  let requestBody := entriesListBody projectID filter maxResults in
  let apiURL := gcpLoggingBaseURL +:+ "/entries:list" in
  req <- try (NewRequestWithContext "POST" apiURL (Some requestBody)) (fun err =>
    NewToolResultError ("Error creating request: " +:+ err)) ;;
  let req := HeaderSet req "Content-Type" "application/json" in
  resp <- try (Do client req) (fun err =>
    NewToolResultError ("Error making request to Logging API: " +:+ err)) ;;
  returnIf (negb (http.StatusCode resp =? http.StatusOK))
    (NewToolResultError ("Error from Logging API: " +:+ http.Status resp)) ;;;
  response <- try (pure (http.asPodLogs (http.RespBody resp))) (fun err =>
    NewToolResultError ("Error parsing response: " +:+ err)) ;;
  pure (NewToolResultText (podLogsReport podName namespace containerName timeRangeHours response)).


(** ** Registration *)

(** AddToolSafe is a wrapper around AddTool; like AddTool it has no
    result. *)
Definition AddToolSafe (s : server.MCPServer) (tool : Tool)
    (handler : server.ToolHandlerFunc) : server.MCPServer :=
  server.AddTool s tool handler.

(** registerDocumentationTools registers all documentation related tools *)
Definition registerDocumentationTools (s : server.MCPServer)
  : server.MCPServer * option string :=
  let searchGCPDocs := NewTool "search_gcp_docs" [
    WithDescription "Searches Google Cloud documentation";
    WithString "query" [Required; Description "The search query"];
    WithNumber "max_results"
      [Description "Maximum number of results to return (default: 5)"] ] in
  let searchGCPDocsHandler := fun request => handleSearchGCPDocs request in
  let s := AddToolSafe s searchGCPDocs searchGCPDocsHandler in
  let searchK8sDocs := NewTool "search_k8s_docs" [
    WithDescription "Searches Kubernetes documentation";
    WithString "query" [Required; Description "The search query"];
    WithNumber "max_results"
      [Description "Maximum number of results to return (default: 5)"] ] in
  let searchK8sDocsHandler := fun request => handleSearchK8sDocs request in
  let s := AddToolSafe s searchK8sDocs searchK8sDocsHandler in
  let getErrorDocs := NewTool "get_error_docs" [
    WithDescription "Gets documentation for a specific error code or message";
    WithString "error_code" [Description "The error code to look up"];
    WithString "error_message" [Description "The error message to look up"] ] in
  let getErrorDocsHandler := fun request => handleGetErrorDocs request in
  let s := AddToolSafe s getErrorDocs getErrorDocsHandler in
  (s, None).

(** registerMonitoringTools registers all monitoring related tools *)
Definition registerMonitoringTools (s : server.MCPServer)
    (authHandler : auth.OAuthHandler) : server.MCPServer * option string :=
  let queryMetrics := NewTool "query_metrics" [
    WithDescription "Queries metrics from GCP Cloud Monitoring";
    WithString "project_id" [Required; Description "The Google Cloud project ID"];
    WithString "metric_type" [Required;
      Description "The metric type to query (e.g., kubernetes.io/container/cpu/utilization)"];
    WithString "filter" [Description "Additional filter for the metrics query"];
    WithNumber "time_range_hours"
      [Description "Time range for metrics in hours (default: 1)"];
    WithNumber "alignment_period_seconds"
      [Description "Alignment period in seconds (default: 300)"] ] in
  let queryMetricsHandler := fun request => handleQueryMetrics request authHandler in
  let s := AddToolSafe s queryMetrics queryMetricsHandler in
  let listAlerts := NewTool "list_alerts" [
    WithDescription "Lists active alerts from GCP Cloud Monitoring";
    WithString "project_id" [Required; Description "The Google Cloud project ID"];
    WithString "filter" [Description "Additional filter for the alerts query"] ] in
  let listAlertsHandler := fun request => handleListAlerts request authHandler in
  let s := AddToolSafe s listAlerts listAlertsHandler in
  (s, None).

(** registerGCPIssuesTools registers all GCP issues related tools *)
Definition registerGCPIssuesTools (s : server.MCPServer)
    (authHandler : auth.OAuthHandler) : server.MCPServer * option string :=
  let listActiveIssues := NewTool "list_active_issues" [
    WithDescription "Lists active issues from GCP Error Reporting";
    WithString "project_id" [Required; Description "The Google Cloud project ID"];
    WithNumber "time_range_hours"
      [Description "Time range for issues in hours (default: 24)"];
    WithNumber "max_results"
      [Description "Maximum number of results to return (default: 10)"] ] in
  let handler := fun request => handleListActiveIssues request authHandler in
  let s := AddToolSafe s listActiveIssues handler in
  let getIssueDetails := NewTool "get_issue_details" [
    WithDescription "Gets detailed information about a specific error group";
    WithString "project_id" [Required; Description "The Google Cloud project ID"];
    WithString "error_group_id" [Required; Description "The ID of the error group"] ] in
  let detailsHandler := fun request => handleGetIssueDetails request authHandler in
  let s := AddToolSafe s getIssueDetails detailsHandler in
  (s, None).

(** registerLoggingTools registers all logging related tools *)
Definition registerLoggingTools (s : server.MCPServer)
    (authHandler : auth.OAuthHandler) : server.MCPServer * option string :=
  let queryLogs := NewTool "query_logs" [
    WithDescription "Queries logs from GCP Cloud Logging";
    WithString "project_id" [Required; Description "The Google Cloud project ID"];
    WithString "filter" [Required;
      Description "The filter expression for the logs query"];
    WithNumber "time_range_hours"
      [Description "Time range for logs in hours (default: 1)"];
    WithNumber "max_results"
      [Description "Maximum number of results to return (default: 50)"] ] in
  let queryHandler := fun request => handleQueryLogs request authHandler in
  let s := AddToolSafe s queryLogs queryHandler in
  let getPodLogs := NewTool "get_pod_logs" [
    WithDescription "Gets logs for a specific Kubernetes pod";
    WithString "project_id" [Required; Description "The Google Cloud project ID"];
    WithString "location" [Required; Description "The GKE cluster location"];
    WithString "cluster_name" [Required; Description "The GKE cluster name"];
    WithString "namespace" [Required; Description "The Kubernetes namespace"];
    WithString "pod_name" [Required; Description "The name of the pod"];
    WithString "container_name" [Description
      "The name of the container (if not provided, logs from all containers will be returned)"];
    WithNumber "time_range_hours"
      [Description "Time range for logs in hours (default: 1)"];
    WithNumber "max_results"
      [Description "Maximum number of results to return (default: 100)"] ] in
  let podLogsHandler := fun request => handleGetPodLogs request authHandler in
  let s := AddToolSafe s getPodLogs podLogsHandler in
  (s, None).

(** registerKubernetesTools registers all Kubernetes related tools *)
Definition registerKubernetesTools (s : server.MCPServer)
    (authHandler : auth.OAuthHandler) : server.MCPServer * option string :=
  let listClusters := NewTool "list_clusters" [
    WithDescription "Lists GKE clusters in a project";
    WithString "project_id" [Required; Description "The Google Cloud project ID"];
    WithString "location" [Description
      "The location to list clusters from (optional, if not provided, all locations will be queried)"] ] in
  let listClustersHandler := fun request => handleListClusters request authHandler in
  let s := AddToolSafe s listClusters listClustersHandler in
  let getClusterInfo := NewTool "get_cluster_info" [
    WithDescription "Gets detailed information about a GKE cluster";
    WithString "project_id" [Required; Description "The Google Cloud project ID"];
    WithString "location" [Required; Description "The location of the cluster"];
    WithString "cluster_name" [Required; Description "The name of the cluster"] ] in
  let getClusterInfoHandler := fun request => handleGetClusterInfo request authHandler in
  let s := AddToolSafe s getClusterInfo getClusterInfoHandler in
  let listNodePools := NewTool "list_node_pools" [
    WithDescription "Lists node pools in a GKE cluster";
    WithString "project_id" [Required; Description "The Google Cloud project ID"];
    WithString "location" [Required; Description "The location of the cluster"];
    WithString "cluster_name" [Required; Description "The name of the cluster"] ] in
  let listNodePoolsHandler := fun request => handleListNodePools request authHandler in
  let s := AddToolSafe s listNodePools listNodePoolsHandler in
  (s, None).

(** [if err := register(s); err != nil { return fmt.Errorf(prefix: %w) }] *)
Definition orWrap (prefix : string) (r : server.MCPServer * option string)
    (next : server.MCPServer -> server.MCPServer * option string)
  : server.MCPServer * option string :=
  match r.2 with
  | Some err => (r.1, Some (prefix +:+ ": " +:+ err))
  | None => next r.1
  end.

(** RegisterTools registers all tools with the MCP server *)
Definition RegisterTools (s : server.MCPServer) (authHandler : auth.OAuthHandler)
  : server.MCPServer * option string :=
  orWrap "error registering GCP issues tools" (registerGCPIssuesTools s authHandler)
  (fun s =>
  orWrap "error registering logging tools" (registerLoggingTools s authHandler)
  (fun s =>
  orWrap "error registering Kubernetes tools" (registerKubernetesTools s authHandler)
  (fun s =>
  orWrap "error registering monitoring tools" (registerMonitoringTools s authHandler)
  (fun s =>
  orWrap "error registering documentation tools" (registerDocumentationTools s)
  (fun s => (s, None)))))).


End tools.

(* ===================================================================== *)
(** * Command ([cmd/main.go])                                              *)
(* ===================================================================== *)

Definition serverName : string := "GCP/K8s Incident Response".
Definition serverVersion : string := "0.1.0".

(** [main] up to the point where it starts serving: the message it exits
    with, or the server that serves the calls. *)
Definition startup (env : auth.Environ) : string + server.MCPServer :=
  let s := server.NewMCPServer serverName serverVersion in
  match auth.NewOAuthHandler env with
  | inl err => inl ("Error setting up auth handler: " +:+ err)
  | inr authHandler =>
      match tools.RegisterTools s authHandler with
      | (_, Some err) => inl ("Error registering tools: " +:+ err)
      | (s, None) => inr s
      end
  end.

(* ===================================================================== *)
(** * Vocabulary of the properties                                        *)
(* ===================================================================== *)

(** The server [main] serves with: the tools RegisterTools registers on a
    fresh server. *)
Definition registered (authHandler : auth.OAuthHandler) : server.MCPServer :=
  (tools.RegisterTools (server.NewMCPServer serverName serverVersion) authHandler).1.

Definition nonEmptyString (v : option Value) : bool :=
  match v with
  | Some (VString s) => negb (GoStrings.empty s)
  | _ => false
  end.

Definition isString (ty : mcp.PropertyType) : bool :=
  match ty with mcp.TString => true | _ => false end.

(** The required string parameters of a tool, in the order of its schema. *)
Definition requiredStrings (t : mcp.Tool) : list string :=
  map mcp.PropName
    (List.filter (fun p => mcp.PropRequired p && isString (mcp.PropType p)) (mcp.Properties t)).

(** The first required string parameter that the arguments leave out, bind
    to something that is not a string, or bind to the empty string. *)
Definition firstViolation (t : mcp.Tool) (arguments : gmap string Value) : option string :=
  List.find (fun k => negb (nonEmptyString (arguments !! k))) (requiredStrings t).

(** The schema the server holds for a tool name. *)
Definition schema (s : server.MCPServer) (toolName : string) : option mcp.Tool :=
  server.Tool <$> server.tools s !! toolName.

(** The parameter a call of the tool is to be refused for, if any. *)
Definition violation (s : server.MCPServer) (toolName : string)
    (arguments : gmap string Value) : option string :=
  t ← schema s toolName; firstViolation t arguments.

Definition isNumber (ty : mcp.PropertyType) : bool :=
  match ty with mcp.TNumber => true | _ => false end.

(** The optional numeric parameters of a tool. *)
Definition optionalNumbers (t : mcp.Tool) : list mcp.Property :=
  List.filter (fun p => negb (mcp.PropRequired p) && isNumber (mcp.PropType p))
    (mcp.Properties t).


(** The default a parameter's description declares, as in
    [(default: 50)]. *)
Fixpoint afterMarker (marker s : string) : option string :=
  if GoStrings.HasPrefix s marker
  then Some (String.substring (String.length marker) (String.length s) s)
  else match s with
       | EmptyString => None
       | String _ r => afterMarker marker r
       end.

Fixpoint leadingNumber (s : string) (acc : option Z) : option Z :=
  match s with
  | String c r =>
      if GoTime.isDigit c
      then leadingNumber r (Some (default 0 acc * 10 + GoTime.digit c))
      else acc
  | EmptyString => acc
  end.

Definition declaredDefault (p : mcp.Property) : option Z :=
  r ← afterMarker "(default: " (mcp.PropDescription p);
  leadingNumber r None.

Definition isError {A B} (r : A + B) : Prop :=
  match r with inl _ => True | inr _ => False end.




(** The text of a successful result. *)
Definition successText (o : option Outcome) : option string :=
  match o with
  | Some {| completion := Returned {| mcp.Content_ := [mcp.TextContent text];
                                      mcp.IsError := false |} None |} => Some text
  | _ => None
  end.




(** The states an OAuth handler goes through: it is made by
    NewOAuthHandler and changed by UpgradePermissions only (GetClient and
    GetClientOptions read it; the fields are not exported). *)
Inductive Reachable : auth.OAuthHandler -> Prop :=
| reach_new env h : auth.NewOAuthHandler env = inr h -> Reachable h
| reach_upgrade h : Reachable h -> Reachable (auth.UpgradePermissions h).1.



(** ** Example inputs *)

Definition exampleEnviron : auth.Environ := {|
  auth.GOOGLE_CLIENT_ID := "client-id";
  auth.GOOGLE_CLIENT_SECRET := "client-secret";
  auth.GOOGLE_APPLICATION_CREDENTIALS := ""
|}.

Definition exampleHandler : auth.OAuthHandler := {|
  auth.clientID := "client-id";
  auth.clientSecret := "client-secret";
  auth.currentScopes := auth.ReadOnlyScopes;
  auth.credentialsFile := ""
|}.

Definition zeroCluster : ClusterInfo.Cluster := {|
  ClusterInfo.Name := ""; ClusterInfo.Description := ""; ClusterInfo.Location := "";
  ClusterInfo.Status := ""; ClusterInfo.NodeCount := 0;
  ClusterInfo.MasterVersion := ""; ClusterInfo.NodeVersion := "";
  ClusterInfo.Network := ""; ClusterInfo.Subnetwork := "";
  ClusterInfo.ClusterIpv4Cidr := ""; ClusterInfo.ServicesIpv4Cidr := "";
  ClusterInfo.Endpoint := ""; ClusterInfo.CreateTime := "";
  ClusterInfo.MaintenanceWindow :=
    {| ClusterInfo.StartTime := ""; ClusterInfo.Duration := "" |};
  ClusterInfo.Networking := {| ClusterInfo.NcNetwork := ""; ClusterInfo.NcSubnetwork := "" |};
  ClusterInfo.Addons :=
    {| ClusterInfo.HttpLoadBalancingDisabled := false;
       ClusterInfo.HorizontalPodAutoscalingDisabled := false;
       ClusterInfo.KubernetesDashboardDisabled := false;
       ClusterInfo.NetworkPolicyConfigDisabled := false |};
  ClusterInfo.Locations := [];
  ClusterInfo.ResourceLabels := ∅
|}.

(** The body [{}]: every struct decodes to its zero value. *)
Definition emptyObject : http.Body := {|
  http.asListClusters := inr {| ListClusters.Clusters := [] |};
  http.asCluster := inr zeroCluster;
  http.asNodePools := inr {| NodePools.Pools := [] |};
  http.asMetrics := inr {|
    Metrics.TimeSeriesData := [];
    Metrics.TimeSeriesDescriptor :=
      {| Metrics.LabelDescriptors := []; Metrics.PointDescriptors := [] |} |};
  http.asPolicies := inr {| Alerts.AlertPolicies := [] |};
  http.asIncidents := inr {| Alerts.Incidents := [] |};
  http.asLogs := inr {| Logs.Entries := []; Logs.NextPageToken := "" |};
  http.asPodLogs := inr {| PodLogs.Entries := []; PodLogs.NextPageToken := "" |}
|}.

(** A stub transport that answers every request with the same response,
    on a host in UTC at 2023-11-14T22:13:20Z; the Error Reporting stub has
    no records; maps are ranged over in the order of [map_to_list]. *)
Definition stubWorld (resp : http.Response) : World := {|
  findDefaultCredentials := fun _ => None;
  now := 1700000000000000000;
  localOffset := fun _ => 0;
  newRequestError := fun _ _ => None;
  roundTrip := fun _ => inr resp;
  newErrorStatsClientError := fun _ => None;
  listGroupStats := fun _ => ([], None);
  listEvents := fun _ => ([], None);
  rangeOrder := fun _ _ l => l
|}.

Definition ok (body : http.Body) : http.Response :=
  {| http.StatusCode := 200; http.Status := "200 OK"; http.RespBody := body |}.

Definition notFound : http.Response :=
  {| http.StatusCode := 404; http.Status := "404 Not Found"; http.RespBody := emptyObject |}.


(** ** Witnesses and counterexamples on concrete calls *)

Definition clusterArguments : gmap string Value :=
  {[ "project_id" := VString "p"; "location" := VString "us-central1";
     "cluster_name" := VString "c" ]}.

Definition notFoundOutcome : Outcome := {|
  trace := [
    ClientDo {| http.Scopes := auth.ReadOnlyScopes |}
      {| http.Method := "GET";
         http.URL := "https://container.googleapis.com/v1/projects/p/locations/us-central1/clusters/c";
         http.ReqBody := None; http.Header := [] |} ];
  completion :=
    Returned (mcp.NewToolResultError "Error from Container API: 404 Not Found") None
|}.

Definition emptyFilterArguments : gmap string Value :=
  {[ "project_id" := VString "p"; "filter" := VString "" ]}.

Definition demoArguments : gmap string Value := {[ "project_id" := VString "demo" ]}.





(** The defaults the schemas declare for the optional numbers of the
    logging and documentation tools. *)
Definition declaredDefaultOf (h : auth.OAuthHandler) (toolName key : string) : option Z :=
  t ← schema (registered h) toolName;
  p ← List.find (fun p => String.eqb (mcp.PropName p) key) (optionalNumbers t);
  declaredDefault p.

Definition issuesArguments (hours : Z) : gmap string Value :=
  <["time_range_hours" := VNumber (GoFloat.ofZ hours)]> {[ "project_id" := VString "p" ]}.






(** The fixed human-readable form: [d] in the layout stands for a digit. *)
Fixpoint matchesLayout (layout s : string) : bool :=
  match layout, s with
  | EmptyString, EmptyString => true
  | String l ls, String c cs =>
      (if Ascii.eqb l "d"%char then GoTime.isDigit c else Ascii.eqb l c)
      && matchesLayout ls cs
  | _, _ => false
  end.

Definition humanForm (s : string) : bool := matchesLayout "dddd-dd-dd dd:dd:dd" s.




(** The names RegisterTools registers, in the order it registers them. *)
Definition toolNames : list string :=
  [ "list_active_issues"; "get_issue_details"; "query_logs"; "get_pod_logs";
    "list_clusters"; "get_cluster_info"; "list_node_pools";
    "query_metrics"; "list_alerts";
    "search_gcp_docs"; "search_k8s_docs"; "get_error_docs" ].

(** The environment holds an OAuth client id and secret, or names a
    credentials file. *)
Definition configured (env : auth.Environ) : bool :=
  negb (GoStrings.empty (auth.GOOGLE_CLIENT_ID env))
  && negb (GoStrings.empty (auth.GOOGLE_CLIENT_SECRET env))
  || negb (GoStrings.empty (auth.GOOGLE_APPLICATION_CREDENTIALS env)).

(** The HTTP method and the start of the URL of the requests of a tool. *)
Definition endpoint (toolName : string) : option (string * string) :=
  if bool_decide (toolName ∈ ["list_clusters"; "get_cluster_info"; "list_node_pools"])
  then Some ("GET", tools.gcpContainerBaseURL +:+ "/projects/")
  else if bool_decide (toolName = "list_alerts")
  then Some ("GET", tools.gcpMonitoringBaseURL +:+ "/projects/")
  else if bool_decide (toolName = "query_metrics")
  then Some ("POST", tools.gcpMonitoringBaseURL +:+ "/projects/")
  else if bool_decide (toolName ∈ ["query_logs"; "get_pod_logs"])
  then Some ("POST", tools.gcpLoggingBaseURL +:+ "/entries:list")
  else None.

(** The request is one a tool makes of its API. *)
Definition servedBy (toolName : string) (req : http.Request) : Prop :=
  match endpoint toolName with
  | Some (method, prefix) =>
      http.Method req = method /\
      GoStrings.HasPrefix (http.URL req) prefix = true /\
      if String.eqb method "GET"
      then http.ReqBody req = None /\ http.Header req = []
      else is_Some (http.ReqBody req) /\
           http.Header req = [("Content-Type", "application/json")]
  | None => False
  end.

(** The tools that answer from tables in the program. *)
Definition documentationTools : list string :=
  [ "search_gcp_docs"; "search_k8s_docs"; "get_error_docs" ].

(** ** Example calls *)

Definition noOutcome : Outcome := {| trace := []; completion := Panicked "" |}.

Definition searchArguments : gmap string Value := {[ "query" := VString "logging" ]}.

Definition searchOutcome : Outcome :=
  Eval vm_compute in
    default noOutcome
      (server.invoke (registered exampleHandler) "search_gcp_docs" searchArguments
         (stubWorld (ok emptyObject))).

(** Statistics of an error group that is not set. *)
Definition grouplessStats : errorreportingpb.ErrorGroupStats := {|
  errorreportingpb.Group := None;
  errorreportingpb.Count := 3;
  errorreportingpb.FirstSeenTime := None;
  errorreportingpb.LastSeenTime := None;
  errorreportingpb.AffectedServices := []
|}.

Definition groupedStats : errorreportingpb.ErrorGroupStats := {|
  errorreportingpb.Group :=
    Some {| errorreportingpb.GroupName := "projects/demo/groups/CJ7Hx" |};
  errorreportingpb.Count := 3;
  errorreportingpb.FirstSeenTime := None;
  errorreportingpb.LastSeenTime := None;
  errorreportingpb.AffectedServices := []
|}.

(** The stub world in which Error Reporting answers with the given
    statistics. *)
Definition statsWorld (stats : list errorreportingpb.ErrorGroupStats) : World := {|
  findDefaultCredentials := fun _ => None;
  now := 1700000000000000000;
  localOffset := fun _ => 0;
  newRequestError := fun _ _ => None;
  roundTrip := fun _ => inr (ok emptyObject);
  newErrorStatsClientError := fun _ => None;
  listGroupStats := fun _ => (stats, None);
  listEvents := fun _ => ([], None);
  rangeOrder := fun _ _ l => l
|}.

Definition panicOutcome : Outcome :=
  Eval vm_compute in
    default noOutcome
      (server.invoke (registered exampleHandler) "list_active_issues" demoArguments
         (statsWorld [grouplessStats])).

Definition issuesOutcome : Outcome :=
  Eval vm_compute in
    default noOutcome
      (server.invoke (registered exampleHandler) "list_active_issues" demoArguments
         (statsWorld [groupedStats])).


Definition demoClustersOutcome : Outcome :=
  Eval vm_compute in
    default noOutcome
      (server.invoke (registered exampleHandler) "list_clusters" demoArguments
         (stubWorld (ok emptyObject))).

Definition codeAndMessage : gmap string Value :=
  {[ "error_code" := VString "NOT_FOUND"; "error_message" := VString "quota" ]}.

Definition incidentIn (state : string) : Alerts.Incident := {|
  Alerts.IName := "projects/demo/incidents/1";
  Alerts.ResourceName := ""; Alerts.PolicyName := "projects/demo/alertPolicies/7";
  Alerts.ConditionName := ""; Alerts.StartTime := "2024-01-02T03:04:05Z";
  Alerts.EndTime := ""; Alerts.State := state; Alerts.Summary := "";
  Alerts.Documentation := ""; Alerts.Severity := "CRITICAL";
  Alerts.ResourceDisplayName := "frontend"
|}.

(** The float64 0.5 *)
Definition halfAnHour : float64 := S754_finite false 4503599627370496 (-53).

(* ===================================================================== *)
(** * Proof tools                                                         *)
(* ===================================================================== *)

(** Case analysis on the name of a registered tool. *)
Ltac registered_cases H :=
  cbv [registered tools.RegisterTools tools.orWrap tools.registerGCPIssuesTools
       tools.registerLoggingTools tools.registerKubernetesTools
       tools.registerMonitoringTools tools.registerDocumentationTools
       tools.AddToolSafe server.AddTool server.tools server.NewMCPServer fst snd] in H;
  repeat (apply lookup_insert_Some in H as [[<- <-] | [_ H]]);
  [ .. | rewrite lookup_empty in H; discriminate H ].

Create HintDb handlers.
#[local] Hint Unfold tools.handleListClusters tools.handleGetClusterInfo
  tools.handleListNodePools tools.handleSearchGCPDocs tools.handleSearchK8sDocs
  tools.handleGetErrorDocs tools.handleQueryMetrics tools.handleListAlerts
  tools.handleListActiveIssues tools.handleGetIssueDetails tools.handleQueryLogs
  tools.handleGetPodLogs : handlers.

(** Rewrite with the known argument lookups and evaluate. *)
Ltac use_lookups :=
  repeat first
    [ progress cbn
    | match goal with
      | E : ?a !! ?k = _ |- context [?a !! ?k] => rewrite E
      end ].

(** Case analysis on the required string arguments named in [Hv], in
    order, up to the first violation. *)
Ltac first_violation Hv :=
  cbn in Hv;
  lazymatch type of Hv with
  | context [nonEmptyString (?a !! ?k)] =>
      let E := fresh "E" in
      destruct (a !! k) as [ [ | ? | ? | [ | ? ? ] | ? | ? ] | ] eqn:E;
      first_violation Hv
  | Some _ = Some _ => injection Hv as <-
  | None = Some _ => discriminate Hv
  end.

(** Symbolic execution of a handler: the term that blocks the evaluation
    of [t] is the scrutinee of its innermost head match. *)
Ltac head_match t :=
  lazymatch t with
  | match _ with _ => _ end => constr:(true)
  | ?f _ => head_match f
  | _ => constr:(false)
  end.

Ltac blocker t :=
  lazymatch t with
  | match ?x with _ => _ end => blocker x
  | ?f ?a =>
      lazymatch head_match f with
      | true => blocker f
      | false => t
      end
  | _ => t
  end.

Ltac unfold_monad H :=
  cbv [run bind try returnIf world emit pure return_ panic Do NewRequestWithContext
       Now auth.GetClient auth.GetClientOptions errorreporting.NewErrorStatsClient
       errorreporting.ListGroupStats errorreporting.ListEvents errorreporting.drain
       fst snd] in H.

Ltac exec H :=
  lazymatch type of H with
  | {| trace := _; completion := _ |} = _ => idtac
  | ?lhs = _ =>
      let b := blocker lhs in
      destruct b eqn:?; cbv beta iota zeta in H; exec H
  end.




(** From a call served by the registered server to the run of the
    handler behind the name: one goal for each registered tool. *)
Ltac served H :=
  let Hst := fresh "Hst" in
  unfold server.invoke in H;
  destruct (server.tools (registered _) !! _) eqn:Hst; [ | discriminate H ];
  cbn [mbind option_bind] in H; injection H as H;
  registered_cases Hst;
  cbn in H.


(** From the schema of a registered tool to the tool: one goal for each
    registered tool. *)
Ltac schema_cases H :=
  let Hst := fresh "Hst" in
  unfold schema in H;
  destruct (server.tools (registered _) !! _) eqn:Hst; [ | discriminate H ];
  cbn [fmap option_fmap option_map] in H; injection H as H;
  unfold server.invoke; rewrite ?Hst; cbn [mbind option_bind];
  registered_cases Hst;
  cbn in H; subst.

(** C2. When a required string parameter of a tool is absent, not a
    string or empty, the call returns the error result that names the
    first such parameter, in the order of the schema, and asks nothing of
    the outside world: the trace of the call is empty. *)
Theorem required_string_validation h name arguments w param :
  violation (registered h) name arguments = Some param ->
  server.invoke (registered h) name arguments w =
    Some {| trace := [];
            completion :=
              Returned (mcp.NewToolResultError (param +:+ " must be a non-empty string")) None |}.
Proof.
  unfold violation. intros Hv.
  destruct (schema (registered h) name) as [t|] eqn:Ht; [ | discriminate Hv ].
  cbn [mbind option_bind] in Hv.
  schema_cases Ht.
  all: first_violation Hv.
  all: autounfold with handlers; use_lookups; reflexivity.
Qed.



(** Evaluate the lookup of a given tool name in the registered server. *)
Ltac lookup_tool :=
  cbv [server.invoke registered tools.RegisterTools tools.orWrap
       tools.registerGCPIssuesTools
       tools.registerLoggingTools tools.registerKubernetesTools
       tools.registerMonitoringTools tools.registerDocumentationTools
       tools.AddToolSafe server.AddTool server.tools server.NewMCPServer fst snd];
  repeat (rewrite lookup_insert_ne by (cbn; discriminate));
  rewrite lookup_insert_eq;
  cbn [mbind option_bind server.Handler].

(** C9. list_active_issues does not read time_range_hours: two calls
    that differ only in that argument have the same outcome, and every
    request to Error Reporting asks for the period of one day. *)
Theorem list_active_issues_ignores_time_range h arguments1 arguments2 w :
  (forall k, k <> "time_range_hours" -> arguments1 !! k = arguments2 !! k) ->
  server.invoke (registered h) "list_active_issues" arguments1 w =
  server.invoke (registered h) "list_active_issues" arguments2 w /\
  (forall out req,
     server.invoke (registered h) "list_active_issues" arguments1 w = Some out ->
     ListGroupStats req ∈ trace out ->
     errorreportingpb.TimeRangePeriod req = errorreportingpb.PERIOD_1_DAY).
Proof.
  intros Hsame. split.
  - lookup_tool. apply (f_equal Some).
    autounfold with handlers; cbn [mcp.Arguments].
    rewrite !(Hsame "project_id"), !(Hsame "max_results") by discriminate.
    reflexivity.
  - intros out req H Hin. revert H. lookup_tool. intros H; injection H as H.
    autounfold with handlers in H; unfold_monad H; exec H.
    all: subst out; cbn [trace completion app] in *.
    all: repeat (apply elem_of_cons in Hin as [Hin | Hin]);
         [ .. | apply elem_of_nil in Hin; contradiction ].
    all: try discriminate Hin.
    all: injection Hin as ->; reflexivity.
Qed.

(** ** Sentences *)

Lemma append_assoc (a b c : string) : (a +:+ b) +:+ c = a +:+ (b +:+ c).
Proof.
  induction a as [|x a IH]; [ reflexivity | ].
  change (String x ((a +:+ b) +:+ c) = String x (a +:+ (b +:+ c))).
  now rewrite IH.
Qed.










(** ** OAuth scopes *)

(** C8. UpgradePermissions compares the number of current scopes with the
    number of read-write scopes; both lists have five entries, so in every
    state reachable from NewOAuthHandler the current scopes are the
    read-only scopes, and UpgradePermissions returns without changing the
    handler. *)
Theorem upgrade_never_changes_scopes h :
  Reachable h ->
  auth.currentScopes h = auth.ReadOnlyScopes /\
  auth.UpgradePermissions h = (h, None).
Proof.
  assert (Hfix : forall h', auth.currentScopes h' = auth.ReadOnlyScopes ->
                            auth.UpgradePermissions h' = (h', None)).
  { intros h' Hs. unfold auth.UpgradePermissions. rewrite Hs. reflexivity. }
  induction 1 as [env h Hnew | h Hr [IHs IHu]].
  - assert (Hs : auth.currentScopes h = auth.ReadOnlyScopes).
    { unfold auth.NewOAuthHandler in Hnew.
      destruct (_ && _); [ discriminate Hnew | ].
      injection Hnew as <-. reflexivity. }
    split; [ exact Hs | exact (Hfix h Hs) ].
  - rewrite IHu. cbn [fst]. split; [ exact IHs | exact IHu ].
Qed.

Lemma upgrade_never_changes_scopes_witness :
  Reachable (auth.UpgradePermissions exampleHandler).1 /\
  auth.currentScopes (auth.UpgradePermissions exampleHandler).1 = auth.ReadOnlyScopes /\
  auth.UpgradePermissions (auth.UpgradePermissions exampleHandler).1 =
    ((auth.UpgradePermissions exampleHandler).1, None).
Proof.
  assert (Hr : Reachable (auth.UpgradePermissions exampleHandler).1).
  { apply reach_upgrade, (reach_new exampleEnviron). reflexivity. }
  split; [ exact Hr | ].
  exact (upgrade_never_changes_scopes _ Hr).
Defined.

(** ** Registration *)

(** C3, as the code has it: registration cannot fail.  RegisterTools
    returns a nil error on every server, whatever names it already holds,
    and AddToolSafe binds the tool's name to the new definition, replacing
    an earlier one of the same name. *)
Theorem registration_never_fails s h :
  (tools.RegisterTools s h).2 = None /\
  (tools.registerKubernetesTools s h).2 = None /\
  forall tool handler,
    server.tools (tools.AddToolSafe s tool handler) !! mcp.ToolName tool =
    Some {| server.Tool := tool; server.Handler := handler |}.
Proof.
  split; [ reflexivity | split; [ reflexivity | ] ].
  intros tool handler. unfold tools.AddToolSafe, server.AddTool. cbn [server.tools].
  apply lookup_insert_eq.
Qed.

(** C3, counterexample: list_clusters is registered, and registering the
    Kubernetes tools (or all tools) again returns no error. *)
Lemma duplicate_registration_is_not_detected :
  is_Some (server.tools (registered exampleHandler) !! "list_clusters") /\
  (tools.registerKubernetesTools (registered exampleHandler) exampleHandler).2 = None /\
  (tools.RegisterTools (registered exampleHandler) exampleHandler).2 = None.
Proof.
  split; [ | split; reflexivity ].
  lookup_tool. eexists. reflexivity.
Qed.


Lemma required_string_validation_witness :
  violation (registered exampleHandler) "query_logs" emptyFilterArguments = Some "filter" /\
  server.invoke (registered exampleHandler) "query_logs" emptyFilterArguments
    (stubWorld (ok emptyObject)) =
    Some {| trace := [];
            completion :=
              Returned (mcp.NewToolResultError "filter must be a non-empty string") None |}.
Proof.
  assert (Hv : violation (registered exampleHandler) "query_logs" emptyFilterArguments
               = Some "filter") by (vm_compute; reflexivity).
  split; [ exact Hv | ].
  exact (required_string_validation exampleHandler "query_logs" emptyFilterArguments
           (stubWorld (ok emptyObject)) "filter" Hv).
Defined.





Example declared_defaults h :
  map (fun nk => declaredDefaultOf h nk.1 nk.2)
    [ ("query_logs", "time_range_hours"); ("get_pod_logs", "time_range_hours");
      ("query_logs", "max_results"); ("get_pod_logs", "max_results");
      ("search_gcp_docs", "max_results"); ("search_k8s_docs", "max_results");
      ("query_metrics", "time_range_hours"); ("query_metrics", "alignment_period_seconds");
      ("list_active_issues", "time_range_hours"); ("list_active_issues", "max_results") ]
  = [ Some 1; Some 1; Some 50; Some 100; Some 5; Some 5; Some 1; Some 300; Some 24; Some 10 ].
Proof. vm_compute. reflexivity. Qed.


Lemma list_active_issues_ignores_time_range_witness :
  (forall k, k <> "time_range_hours" ->
             issuesArguments 1 !! k = issuesArguments 100 !! k) /\
  server.invoke (registered exampleHandler) "list_active_issues" (issuesArguments 1)
    (stubWorld (ok emptyObject)) =
  server.invoke (registered exampleHandler) "list_active_issues" (issuesArguments 100)
    (stubWorld (ok emptyObject)).
Proof.
  assert (Hsame : forall k, k <> "time_range_hours" ->
                            issuesArguments 1 !! k = issuesArguments 100 !! k).
  { intros k Hk. unfold issuesArguments. rewrite !lookup_insert_ne by congruence.
    reflexivity. }
  split; [ exact Hsame | ].
  exact (proj1 (list_active_issues_ignores_time_range exampleHandler
                  (issuesArguments 1) (issuesArguments 100)
                  (stubWorld (ok emptyObject)) Hsame)).
Defined.

(** ** Map iteration order *)













Lemma stub_fair resp : fair (stubWorld resp).
Proof. intros site V l. reflexivity. Qed.





Lemma matchesLayout_app l1 l2 s1 s2 :
  matchesLayout l1 s1 = true -> matchesLayout l2 s2 = true ->
  matchesLayout (l1 +:+ l2) (s1 +:+ s2) = true.
Proof.
  revert s1. induction l1 as [|l l1 IH]; intros [|c s1] H1 H2; try discriminate H1.
  - exact H2.
  - cbn [matchesLayout] in H1. apply andb_true_iff in H1 as [Hc H1].
    change (matchesLayout (String l (l1 +:+ l2)) (String c (s1 +:+ s2)) = true).
    cbn [matchesLayout]. rewrite Hc. cbn [andb]. now apply IH.
Qed.

Lemma appendInt_layout (width : nat) (bound : Z) layout :
  forallb (fun n => matchesLayout layout (GoTime.appendInt (Z.of_nat n) width))
    (seq 0 (Z.to_nat bound)) = true ->
  forall x, 0 <= x < bound -> matchesLayout layout (GoTime.appendInt x width) = true.
Proof.
  intros Hall x Hx. rewrite forallb_forall in Hall.
  rewrite <- (Z2Nat.id x) by lia. apply Hall. apply in_seq. lia.
Qed.

Lemma appendInt_4 x : 0 <= x < 10000 -> matchesLayout "dddd" (GoTime.appendInt x 4) = true.
Proof. apply (appendInt_layout 4 10000). vm_compute. reflexivity. Qed.

Lemma appendInt_2 x : 0 <= x < 100 -> matchesLayout "dd" (GoTime.appendInt x 2) = true.
Proof. apply (appendInt_layout 2 100). vm_compute. reflexivity. Qed.

Lemma digit_range c : GoTime.isDigit c = true -> 0 <= GoTime.digit c <= 9.
Proof.
  unfold GoTime.isDigit, GoTime.digit. intros H.
  apply andb_true_iff in H as [H1 H2].
  apply Nat.leb_le in H1, H2. lia.
Qed.

Lemma getnum_range s fixed n r : GoTime.getnum s fixed = Some (n, r) -> 0 <= n < 100.
Proof.
  unfold GoTime.getnum. intros H.
  destruct s as [|c0 rest]; [ discriminate H | ].
  destruct (GoTime.isDigit c0) eqn:H0; [ | discriminate H ].
  apply digit_range in H0.
  destruct rest as [|c1 rest'].
  - destruct fixed; [ discriminate H | ]. injection H as <- _. lia.
  - destruct (GoTime.isDigit c1) eqn:H1.
    + apply digit_range in H1. injection H as <- _. lia.
    + destruct fixed; [ discriminate H | ]. injection H as <- _. lia.
Qed.

Lemma longYear_range value y r : GoTime.longYear value = Some (y, r) -> 0 <= y < 10000.
Proof.
  unfold GoTime.longYear. intros H.
  destruct value as [|a [|b [|c [|e rest]]]]; try discriminate H.
  destruct (GoTime.isDigit a) eqn:Ha; [ | discriminate H ].
  destruct (GoTime.isDigit b) eqn:Hb; [ | discriminate H ].
  destruct (GoTime.isDigit c) eqn:Hc; [ | discriminate H ].
  destruct (GoTime.isDigit e) eqn:He; [ | discriminate H ].
  apply digit_range in Ha, Hb, Hc, He.
  cbn in H. injection H as <- _. lia.
Qed.

Lemma daysIn_le month year : GoTime.daysIn month year <= 31.
Proof. unfold GoTime.daysIn. repeat destruct (_ : bool); lia. Qed.

(** The fields of a parsed time are in the ranges of a calendar date and a
    clock reading. *)
Lemma ParseRFC3339_range value t :
  GoTime.ParseRFC3339 value = Some t ->
  0 <= GoTime.Year t < 10000 /\ 1 <= GoTime.Month t <= 12 /\
  1 <= GoTime.Day t <= GoTime.daysIn (GoTime.Month t) (GoTime.Year t) /\
  0 <= GoTime.Hour t < 24 /\ 0 <= GoTime.Minute t < 60 /\ 0 <= GoTime.Second t < 60.
Proof.
  unfold GoTime.ParseRFC3339. intros H.
  destruct (GoTime.longYear value) as [[year v1]|] eqn:Ey; [ | discriminate H ].
  cbn [mbind option_bind] in H.
  destruct (GoTime.skip v1 "-") as [v2|]; [ | discriminate H ].
  cbn [mbind option_bind] in H.
  destruct (GoTime.getnum v2 true) as [[month v3]|] eqn:Em; [ | discriminate H ].
  cbn [mbind option_bind] in H.
  destruct ((month <=? 0) || (12 <? month)) eqn:Bm; [ discriminate H | ].
  destruct (GoTime.skip v3 "-") as [v4|]; [ | discriminate H ].
  cbn [mbind option_bind] in H.
  destruct (GoTime.getnum v4 true) as [[day v5]|] eqn:Ed; [ | discriminate H ].
  cbn [mbind option_bind] in H.
  destruct (GoTime.skip v5 "T") as [v6|]; [ | discriminate H ].
  cbn [mbind option_bind] in H.
  destruct (GoTime.getnum v6 false) as [[hour v7]|] eqn:Eh; [ | discriminate H ].
  cbn [mbind option_bind] in H.
  destruct (24 <=? hour) eqn:Bh; [ discriminate H | ].
  destruct (GoTime.skip v7 ":") as [v8|]; [ | discriminate H ].
  cbn [mbind option_bind] in H.
  destruct (GoTime.getnum v8 true) as [[min v9]|] eqn:En; [ | discriminate H ].
  cbn [mbind option_bind] in H.
  destruct (60 <=? min) eqn:Bn; [ discriminate H | ].
  destruct (GoTime.skip v9 ":") as [v10|]; [ | discriminate H ].
  cbn [mbind option_bind] in H.
  destruct (GoTime.getnum v10 true) as [[sec v11]|] eqn:Es; [ | discriminate H ].
  cbn [mbind option_bind] in H.
  destruct (60 <=? sec) eqn:Bs; [ discriminate H | ].
  cbv zeta in H.
  destruct (GoTime.zoneOffset (GoTime.fractionalSecond v11)) as [[offset v12]|];
    [ | discriminate H ].
  cbn [mbind option_bind] in H.
  destruct (negb (GoStrings.empty v12)); [ discriminate H | ].
  destruct ((day <? 1) || (GoTime.daysIn month year <? day)) eqn:Bd; [ discriminate H | ].
  injection H as <-. cbn [GoTime.Year GoTime.Month GoTime.Day GoTime.Hour GoTime.Minute
                         GoTime.Second].
  apply longYear_range in Ey.
  apply getnum_range in Em, Ed, Eh, En, Es.
  apply orb_false_iff in Bm as [Bm1 Bm2], Bd as [Bd1 Bd2].
  lia.
Qed.

Lemma FormatDateTime_humanForm t :
  0 <= GoTime.Year t < 10000 -> 0 <= GoTime.Month t < 100 -> 0 <= GoTime.Day t < 100 ->
  0 <= GoTime.Hour t < 100 -> 0 <= GoTime.Minute t < 100 -> 0 <= GoTime.Second t < 100 ->
  humanForm (GoTime.FormatDateTime t) = true.
Proof.
  intros Hy Hm Hd Hh Hn Hs.
  unfold humanForm, GoTime.FormatDateTime, GoTime.date, GoTime.clock.
  rewrite !append_assoc.
  change "dddd-dd-dd dd:dd:dd"
    with ("dddd" +:+ "-" +:+ "dd" +:+ "-" +:+ "dd" +:+ " " +:+ "dd" +:+ ":" +:+ "dd"
          +:+ ":" +:+ "dd").
  repeat first
    [ apply appendInt_4; assumption
    | apply appendInt_2; assumption
    | apply matchesLayout_app
    | reflexivity ].
Qed.






(** ** Start-up and registration *)

Lemma registered_names h name :
  is_Some (server.tools (registered h) !! name) <-> name ∈ toolNames.
Proof.
  split.
  - intros [tool Hst]. registered_cases Hst.
    all: unfold toolNames; cbn [mcp.ToolName mcp.NewTool fold_left mcp.WithDescription
           mcp.WithString mcp.WithNumber mcp.withProperty mcp.Properties
           mcp.ToolDescription].
    all: repeat first [ apply list_elem_of_here | apply list_elem_of_further ].
  - unfold toolNames. intros Hin.
    repeat (apply elem_of_cons in Hin as [-> | Hin]);
      [ .. | apply elem_of_nil in Hin; contradiction ].
    all: lookup_tool; eexists; reflexivity.
Qed.

(** main, up to serving: with an OAuth client id and secret or a
    credentials file in the environment, the server that serves is the
    fresh server with the tools registered for the handler made from the
    environment, whose scopes are the read-only scopes; otherwise main
    exits with the message of NewOAuthHandler. *)
Theorem startup_needs_credentials env :
  if configured env then
    exists h,
      auth.NewOAuthHandler env = inr h /\
      startup env = inr (registered h) /\
      auth.currentScopes h = auth.ReadOnlyScopes /\
      auth.clientID h = auth.GOOGLE_CLIENT_ID env /\
      auth.clientSecret h = auth.GOOGLE_CLIENT_SECRET env /\
      auth.credentialsFile h = auth.GOOGLE_APPLICATION_CREDENTIALS env
  else
    exists err,
      auth.NewOAuthHandler env = inl err /\
      startup env = inl ("Error setting up auth handler: " +:+ err).
Proof.
  unfold configured, startup, auth.NewOAuthHandler.
  destruct (GoStrings.empty (auth.GOOGLE_CLIENT_ID env)),
           (GoStrings.empty (auth.GOOGLE_CLIENT_SECRET env)),
           (GoStrings.empty (auth.GOOGLE_APPLICATION_CREDENTIALS env));
    cbn [negb andb orb].
  all: first [ eexists; split; [ reflexivity | ]; split; [ reflexivity | ];
               repeat split
             | eexists; split; reflexivity ].
Qed.

(** The server knows the twelve registered names and no other: a call of
    any other name is not served by a handler. *)
Theorem unknown_tools_are_not_served h name arguments w :
  server.invoke (registered h) name arguments w = None <-> name ∉ toolNames.
Proof.
  rewrite <- (registered_names h name). unfold server.invoke.
  destruct (server.tools (registered h) !! name) as [tool|]; cbn [mbind option_bind].
  - split; [ discriminate | ]. intros Hn. exfalso. apply Hn. exists tool. reflexivity.
  - split; [ | reflexivity ]. intros _ [tool Hsome]. discriminate Hsome.
Qed.

(** Forget what the registered entries are, and evaluate their names. *)
Ltac abstract_entries :=
  repeat match goal with
  | |- context [{| server.Tool := ?t; server.Handler := ?f |}] =>
      generalize {| server.Tool := t; server.Handler := f |}; intro
  end;
  repeat match goal with
  | |- context [mcp.ToolName ?t] =>
      let n := eval vm_compute in (mcp.ToolName t) in
      change (mcp.ToolName t) with n
  end.

(** A lookup in a map built by inserts, by cases on the key. *)
Ltac insert_cases k :=
  repeat first
    [ rewrite lookup_insert_ne by assumption
    | match goal with
      | |- context [<[?n := _]> _ !! k] =>
          destruct (decide (n = k)) as [<- | ?];
          [ repeat first [ rewrite lookup_insert_eq
                         | rewrite lookup_insert_ne by discriminate ];
            reflexivity
          | ]
      end ].

Ltac unfold_registration :=
  cbv [tools.RegisterTools tools.orWrap tools.registerGCPIssuesTools
       tools.registerLoggingTools tools.registerKubernetesTools
       tools.registerMonitoringTools tools.registerDocumentationTools
       tools.AddToolSafe server.AddTool server.tools server.name server.version fst snd].

(** Registering the tools a second time changes nothing, and registering
    them on a server that already holds tools keeps the tools of other
    names, and the server's name and version. *)
Theorem RegisterTools_idempotent s h :
  (tools.RegisterTools (tools.RegisterTools s h).1 h).1 = (tools.RegisterTools s h).1 /\
  (forall name, name ∉ toolNames ->
     server.tools (tools.RegisterTools s h).1 !! name = server.tools s !! name) /\
  server.name (tools.RegisterTools s h).1 = server.name s /\
  server.version (tools.RegisterTools s h).1 = server.version s.
Proof.
  destruct s as [sname sversion stools].
  split; [ | split; [ | split; reflexivity ] ].
  - unfold_registration. abstract_entries.
    f_equal. apply map_eq. intros k.
    insert_cases k. reflexivity.
  - intros name Hname. unfold_registration. abstract_entries.
    repeat (rewrite lookup_insert_ne;
            [ | intros <-; apply Hname; unfold toolNames;
                repeat first [ apply list_elem_of_here | apply list_elem_of_further ] ]).
    reflexivity.
Qed.

(** ** OAuth handler *)

(** GetClientOptions never fails and asks nothing of the outside world.
    With a credentials file it names the file; without one it takes the
    client of GetClient, which then does not look for default
    credentials: the error branch of GetClientOptions is never taken. *)
Theorem GetClientOptions_never_fails h w tr :
  auth.GetClientOptions h w tr =
    (tr, Next (inr (if negb (GoStrings.empty (auth.credentialsFile h))
                    then [option_.WithCredentialsFile (auth.credentialsFile h)]
                    else [option_.WithHTTPClient
                            {| http.Scopes := auth.currentScopes h |}]))).
Proof.
  unfold auth.GetClientOptions, auth.GetClient.
  destruct (negb (GoStrings.empty (auth.credentialsFile h))) eqn:Hfile.
  - reflexivity.
  - cbv [bind pure]. reflexivity.
Qed.

(** UpgradePermissions returns a nil error in every state of the handler,
    changes nothing but the scopes, and a second call changes nothing. *)
Theorem UpgradePermissions_idempotent h :
  (auth.UpgradePermissions h).2 = None /\
  auth.UpgradePermissions (auth.UpgradePermissions h).1 =
    ((auth.UpgradePermissions h).1, None) /\
  auth.clientID (auth.UpgradePermissions h).1 = auth.clientID h /\
  auth.clientSecret (auth.UpgradePermissions h).1 = auth.clientSecret h /\
  auth.credentialsFile (auth.UpgradePermissions h).1 = auth.credentialsFile h /\
  (auth.currentScopes (auth.UpgradePermissions h).1 = auth.currentScopes h \/
   auth.currentScopes (auth.UpgradePermissions h).1 = auth.ReadWriteScopes).
Proof.
  unfold auth.UpgradePermissions.
  destruct (Nat.eqb (length (auth.currentScopes h)) (length auth.ReadWriteScopes)) eqn:Hlen;
    cbn [fst snd auth.currentScopes auth.clientID auth.clientSecret auth.credentialsFile].
  - rewrite Hlen. repeat split. now left.
  - repeat split. now right.
Qed.


(** ** What a call asks of the outside world *)


Ltac unfold_monad_goal :=
  cbv [run bind try returnIf world emit pure return_ panic Do NewRequestWithContext
       Now auth.GetClient auth.GetClientOptions errorreporting.NewErrorStatsClient
       errorreporting.ListGroupStats errorreporting.ListEvents errorreporting.drain
       fst snd].

Lemma HasPrefix_app p r : GoStrings.HasPrefix (p +:+ r) p = true.
Proof.
  induction p as [|c p IH]; [ now destruct r | ].
  change (GoStrings.HasPrefix (String c (p +:+ r)) (String c p) = true).
  cbn [GoStrings.HasPrefix]. now rewrite Ascii.eqb_refl.
Qed.

Lemma HasPrefix_refl p : GoStrings.HasPrefix p p = true.
Proof.
  induction p as [|c p IH]; [ reflexivity | ].
  cbn [GoStrings.HasPrefix]. now rewrite Ascii.eqb_refl.
Qed.

Ltac has_prefix :=
  lazymatch goal with
  | |- GoStrings.HasPrefix (if ?c then _ else _) _ = true => destruct c; has_prefix
  | |- GoStrings.HasPrefix (?base +:+ "/projects/" +:+ ?rest) _ = true =>
      exact (HasPrefix_app (base +:+ "/projects/") rest)
  | |- GoStrings.HasPrefix ?u _ = true => exact (HasPrefix_refl u)
  end.

(** Every HTTP request of a tool goes to the API of that tool: a GET
    without body or headers to the Container API (Kubernetes tools) or the
    Monitoring API (list_alerts), or a POST of a JSON body with the
    Content-Type header to the Monitoring API (query_metrics) or to
    entries:list of the Logging API (logging tools).  The other tools make
    no HTTP request, and no call makes more than two. *)
Theorem requests_go_to_the_tools_api h name arguments w out :
  server.invoke (registered h) name arguments w = Some out ->
  (forall c req, ClientDo c req ∈ trace out -> servedBy name req) /\
  (length (List.filter (fun e => match e with ClientDo _ _ => true | _ => false end)
             (trace out)) <= 2)%nat.
Proof.
  intros H. served H.
  all: autounfold with handlers in H; unfold_monad H; exec H.
  all: subst out; cbn [trace completion app].
  all: split; [ | cbn; lia ].
  all: intros client0 req0 Hin.
  all: repeat (apply elem_of_cons in Hin as [Hin | Hin]);
       [ .. | apply elem_of_nil in Hin; contradiction ].
  all: try discriminate Hin.
  all: injection Hin as -> ->.
  all: unfold servedBy.
  all: match goal with
       | |- context [endpoint ?n] =>
           let v := eval vm_compute in (endpoint n) in change (endpoint n) with v
       end.
  all: cbn [String.eqb Ascii.eqb Bool.eqb HeaderSet http.ReqBody http.Header http.URL
            http.Method app].
  all: split; [ reflexivity | ].
  all: split; [ has_prefix | ].
  all: split; first [ reflexivity | eexists; reflexivity ].
Qed.

(** The documentation tools answer from the tables in the program: a call
    asks nothing of the outside world, returns a textual result and no
    error, and the two search tools give the same result in every world
    and for every handler. *)
Theorem documentation_tools_ask_nothing h name arguments w out :
  name ∈ documentationTools ->
  server.invoke (registered h) name arguments w = Some out ->
  trace out = [] /\
  (exists text isError,
     completion out =
       Returned {| mcp.Content_ := [mcp.TextContent text]; mcp.IsError := isError |} None) /\
  (name <> "get_error_docs" ->
   forall h' w', server.invoke (registered h') name arguments w' = Some out).
Proof.
  intros Hname H. unfold documentationTools in Hname.
  repeat (apply elem_of_cons in Hname as [-> | Hname]);
    [ .. | apply elem_of_nil in Hname; contradiction ].
  all: revert H; lookup_tool; intros H; injection H as H.
  all: autounfold with handlers in H; unfold_monad H.
  all: exec H; subst out; cbn [trace completion].
  all: split; [ reflexivity | ].
  all: split; [ eexists; eexists; reflexivity | ].
  all: intros Hne; try congruence.
  all: intros h' w'; lookup_tool; apply (f_equal Some).
  all: autounfold with handlers; unfold_monad_goal.
  all: repeat match goal with E : ?x = _ |- context [?x] => rewrite E end.
  all: reflexivity.
Qed.

(** ** Panics *)

Lemma rangePanicFrom_None {A} (body : nat -> A -> option string) (bad : A -> Prop) xs i :
  (forall j x, body j x = None <-> bad x) ->
  tools.rangePanicFrom i xs body = None <-> exists x, x ∈ xs /\ bad x.
Proof.
  intros Hbad. revert i.
  induction xs as [|x xs IH]; intros i; cbn [tools.rangePanicFrom].
  - split; [ discriminate | ]. intros (x & Hin & _). now apply elem_of_nil in Hin.
  - destruct (body i x) as [b|] eqn:Hb; cbn [mbind option_bind].
    + assert (Hx : ~ bad x).
      { intros Hx. apply (Hbad i) in Hx. congruence. }
      destruct (tools.rangePanicFrom (S i) xs body) as [rest|] eqn:Hrest;
        cbn [mbind option_bind].
      * split; [ discriminate | ]. intros (y & Hin & Hy).
        apply elem_of_cons in Hin as [-> | Hin]; [ contradiction | ].
        assert (Hnone : tools.rangePanicFrom (S i) xs body = None)
          by (apply IH; eauto).
        congruence.
      * split; [ | reflexivity ]. intros _.
        apply (IH (S i)) in Hrest as (y & Hin & Hy).
        exists y. split; [ now apply list_elem_of_further | exact Hy ].
    + split; [ | reflexivity ]. intros _. exists x.
      split; [ apply list_elem_of_here | now apply (Hbad i) ].
Qed.

Lemma issueEntry_None i stat :
  tools.issueEntry i stat = None <-> errorreportingpb.Group stat = None.
Proof.
  unfold tools.issueEntry.
  destruct (errorreportingpb.Group stat); cbn [mbind option_bind]; split; congruence.
Qed.

Lemma issuesReport_None projectID errorGroupStats :
  tools.issuesReport projectID errorGroupStats = None <->
  exists stat, stat ∈ errorGroupStats /\ errorreportingpb.Group stat = None.
Proof.
  unfold tools.issuesReport.
  destruct errorGroupStats as [|stat stats].
  - cbn. split; [ discriminate | ]. intros (x & Hin & _). now apply elem_of_nil in Hin.
  - cbn [length Nat.eqb].
    rewrite <- (rangePanicFrom_None tools.issueEntry _ (stat :: stats) 0 issueEntry_None).
    destruct (tools.rangePanicFrom 0 (stat :: stats) tools.issueEntry);
      cbn [mbind option_bind]; split; congruence.
Qed.

(** The report of list_active_issues cannot be built, and the handler
    panics with a nil pointer dereference, exactly when Error Reporting
    returned some statistics without the error group set. *)
Theorem issues_report_panics_on_a_missing_group projectID errorGroupStats :
  tools.issuesReport projectID errorGroupStats = None <->
  exists stat, stat ∈ errorGroupStats /\ errorreportingpb.Group stat = None.
Proof. apply issuesReport_None. Qed.

(** A call ends in a panic only in list_active_issues, and only after
    Error Reporting has answered the one request of the call with
    statistics among which some have no error group. *)
Theorem only_a_missing_group_panics h name arguments w out msg :
  server.invoke (registered h) name arguments w = Some out ->
  completion out = Panicked msg ->
  name = "list_active_issues" /\
  exists req stats stat,
    ListGroupStats req ∈ trace out /\
    listGroupStats w req = (stats, None) /\
    stat ∈ stats /\ errorreportingpb.Group stat = None.
Proof.
  intros H Hpanic. served H.
  all: autounfold with handlers in H; unfold_monad H; exec H.
  all: subst out; cbn [trace completion] in *; try discriminate Hpanic.
  all: split; [ reflexivity | ].
  all: match goal with
       | E : tools.issuesReport _ ?stats = None,
         E' : listGroupStats _ ?req = (?l, ?o) |- _ =>
           apply issuesReport_None in E as (stat & Hin & Hg);
           exists req, l, stat
       end.
  all: cbn [fst snd] in *; subst.
  all: split; [ | split; [ assumption | split; assumption ] ].
  all: repeat first [ apply list_elem_of_here | apply list_elem_of_further ].
Qed.

(** ** Documentation search *)

Lemma rangeBreakFrom_take {A} (limit : Z) (body : nat -> A -> string) xs i :
  tools.rangeBreakFrom i xs (fun j => limit <=? Z.of_nat j) body =
  rangeFrom i (take (Z.to_nat (limit - Z.of_nat i)) xs) body.
Proof.
  revert i. induction xs as [|x xs IH]; intros i.
  - now destruct (Z.to_nat (limit - Z.of_nat i)).
  - cbn [tools.rangeBreakFrom]. destruct (limit <=? Z.of_nat i) eqn:Hstop.
    + apply Z.leb_le in Hstop.
      replace (Z.to_nat (limit - Z.of_nat i)) with 0%nat by lia. reflexivity.
    + apply Z.leb_gt in Hstop.
      replace (Z.to_nat (limit - Z.of_nat i))
        with (S (Z.to_nat (limit - Z.of_nat (S i)))) by lia.
      cbn [take rangeFrom]. now rewrite IH.
Qed.

Lemma rangeBreakFrom_never {A} (body : nat -> A -> string) (stop : nat -> bool) xs i :
  (forall j, (j < i + length xs)%nat -> stop j = false) ->
  tools.rangeBreakFrom i xs stop body = rangeFrom i xs body.
Proof.
  revert i. induction xs as [|x xs IH]; intros i Hstop; [ reflexivity | ].
  cbn [tools.rangeBreakFrom rangeFrom length] in *.
  rewrite Hstop by lia. rewrite IH; [ reflexivity | ].
  intros j Hj. apply Hstop. lia.
Qed.

(** The search tools show the matches in the order of the table and stop
    at the limit, the integer part of max_results: the matches after the
    first [limit] do not appear, with a limit of zero (a max_results below
    one) or less none appears, and every limit that is at least the
    number of matches gives the same text. *)
Theorem search_stops_at_max_results filteredResults maxResults :
  let limit := GoFloat.int maxResults in
  tools.searchEntries filteredResults maxResults =
    tools.searchEntries (take (Z.to_nat limit) filteredResults) maxResults /\
  (limit <= 0 -> tools.searchEntries filteredResults maxResults = "") /\
  (forall maxResults',
     Z.of_nat (length filteredResults) <= limit ->
     Z.of_nat (length filteredResults) <= GoFloat.int maxResults' ->
     tools.searchEntries filteredResults maxResults' =
     tools.searchEntries filteredResults maxResults).
Proof.
  cbv zeta. unfold tools.searchEntries.
  split; [ | split ].
  - rewrite !rangeBreakFrom_take. rewrite Z.sub_0_r.
    now rewrite take_take, Nat.min_id.
  - intros Hlimit. rewrite rangeBreakFrom_take.
    replace (Z.to_nat (GoFloat.int maxResults - Z.of_nat 0)) with 0%nat by lia.
    reflexivity.
  - intros maxResults' H1 H2.
    rewrite !rangeBreakFrom_never; [ reflexivity | | ].
    + intros j Hj. apply Z.leb_gt. lia.
    + intros j Hj. apply Z.leb_gt. lia.
Qed.

(** ** Error documentation *)

Lemma Contains_empty s : GoStrings.Contains s "" = true.
Proof. now destruct s. Qed.

(** When the error code is one of the table, get_error_docs answers with
    the document of that code: the error message, the other arguments,
    the world and the order of the map do not matter. *)
Theorem known_error_code_decides h arguments w errorCode doc :
  arguments !! "error_code" = Some (VString errorCode) ->
  tools.errorDocs !! errorCode = Some doc ->
  forall h' w',
    server.invoke (registered h) "get_error_docs" arguments w =
    server.invoke (registered h') "get_error_docs"
      {[ "error_code" := VString errorCode ]} w' /\
    exists rest,
      successText (server.invoke (registered h) "get_error_docs" arguments w) =
        Some ("# " +:+ tools.DocTitle doc +:+ newline +:+ rest).
Proof.
  intros Hcode Hdoc h' w'.
  assert (Hreport : forall w0 msg hasMsg,
            tools.errorDocReport w0 errorCode true msg hasMsg =
            "# " +:+ tools.DocTitle doc +:+ newline +:+ newline
            +:+ "## Description" +:+ newline +:+ newline +:+ tools.DocDescription doc
            +:+ newline +:+ newline
            +:+ "## Solution" +:+ newline +:+ newline +:+ tools.Solution doc
            +:+ newline +:+ newline
            +:+ (if Nat.ltb 0 (length (tools.References doc)) then
                   "## References" +:+ newline +:+ newline
                   +:+ tools.reportLines (tools.References doc) (fun ref =>
                         "- [" +:+ ref +:+ "](" +:+ ref +:+ ")" +:+ newline)
                 else "")).
  { intros w0 msg hasMsg. unfold tools.errorDocReport, tools.lookupErrorDoc.
    cbn [fst snd]. rewrite Hdoc. reflexivity. }
  do 2 lookup_tool. autounfold with handlers. cbn [mcp.Arguments].
  rewrite Hcode, lookup_singleton_eq, lookup_singleton_ne by discriminate.
  cbn [mcp.asString negb andb].
  destruct (mcp.asString (arguments !! "error_message")) as [msg hasMsg].
  unfold_monad_goal. cbn [successText mcp.NewToolResultText].
  rewrite !Hreport. split; [ reflexivity | ].
  eexists. reflexivity.
Qed.

(** An empty error message is contained in every description: when no
    document is found by code, get_error_docs answers with the document
    the range over the table visits first, whichever that is. *)
Theorem empty_error_message_matches_any_document w errorCode (hasErrorCode : bool) :
  fair w ->
  (if hasErrorCode then tools.errorDocs !! errorCode else None) = @None tools.ErrorDoc ->
  exists entry,
    entry ∈ map_to_list tools.errorDocs /\
    head (rangeMap w 0 tools.errorDocs) = Some entry /\
    tools.lookupErrorDoc w (errorCode, hasErrorCode) ("", true) = Some entry.2.
Proof.
  intros Hfair HbyCode. unfold tools.lookupErrorDoc. cbn [fst snd].
  rewrite HbyCode. cbn [GoStrings.ToLower].
  pose proof (Hfair 0%nat _ (map_to_list tools.errorDocs)) as Hperm.
  fold (rangeMap w 0 tools.errorDocs) in Hperm.
  destruct (rangeMap w 0 tools.errorDocs) as [|entry l] eqn:Hrange.
  - apply Permutation_length in Hperm. rewrite length_map_to_list in Hperm.
    vm_compute in Hperm. discriminate Hperm.
  - exists entry. split; [ | split; [ reflexivity | ] ].
    + rewrite <- Hperm. apply list_elem_of_here.
    + cbn [List.find]. unfold tools.describes at 1. rewrite Contains_empty. reflexivity.
Qed.

(** ** Times *)

Lemma getnum_two c0 c1 rest fixed :
  GoTime.isDigit c0 = true -> GoTime.isDigit c1 = true ->
  GoTime.getnum (String c0 (String c1 rest)) fixed
  = Some (GoTime.digit c0 * 10 + GoTime.digit c1, rest).
Proof. intros H0 H1. unfold GoTime.getnum. now rewrite H0, H1. Qed.

Lemma humanForm_not_RFC3339 s : humanForm s = true -> GoTime.ParseRFC3339 s = None.
Proof.
  unfold humanForm. intros H.
  cbn [matchesLayout] in H.
  repeat match type of H with
  | context [Ascii.eqb ?l "d"%char] =>
      let v := eval vm_compute in (Ascii.eqb l "d"%char) in
      change (Ascii.eqb l "d"%char) with v in H
  end.
  cbv iota in H.
  do 11 (destruct s as [|? s]; [ discriminate H | ];
         cbv iota in H; apply andb_true_iff in H as [? H]).
  repeat match goal with
  | E : Ascii.eqb _ _ = true |- _ => apply Ascii.eqb_eq in E; subst
  end.
  unfold GoTime.ParseRFC3339, GoTime.longYear.
  repeat match goal with E : GoTime.isDigit _ = true |- _ => rewrite E end.
  cbn [andb mbind option_bind GoTime.skip Ascii.eqb Bool.eqb].
  rewrite getnum_two by assumption. cbn [mbind option_bind].
  destruct (_ || _); [ reflexivity | ].
  cbn [andb mbind option_bind GoTime.skip Ascii.eqb Bool.eqb].
  rewrite getnum_two by assumption. reflexivity.
Qed.

(** formatTime is idempotent: the human-readable form it returns for an
    RFC3339 string does not parse as RFC3339 and is returned as it is. *)
Theorem formatTime_idempotent timeStr :
  tools.formatTime (tools.formatTime timeStr) = tools.formatTime timeStr.
Proof.
  unfold tools.formatTime at 2 3.
  destruct (GoTime.ParseRFC3339 timeStr) as [t|] eqn:Hparse.
  - unfold tools.formatTime. rewrite humanForm_not_RFC3339; [ reflexivity | ].
    apply ParseRFC3339_range in Hparse as (Hy & Hm & Hd & Hh & Hn & Hs).
    pose proof (daysIn_le (GoTime.Month t) (GoTime.Year t)).
    apply FormatDateTime_humanForm; lia.
  - unfold tools.formatTime. now rewrite Hparse.
Qed.

(** ** Alerts *)

Lemma rangeFrom_silent {A} (body : nat -> A -> string) silent rest i :
  (forall j x, x ∈ silent -> body j x = "") ->
  rangeFrom i (silent ++ rest) body = rangeFrom (i + length silent) rest body.
Proof.
  revert i. induction silent as [|x silent IH]; intros i Hsilent.
  - cbn [app length]. now rewrite Nat.add_0_r.
  - cbn [app rangeFrom length]. rewrite (Hsilent i x) by apply list_elem_of_here.
    rewrite IH by (intros j y Hy; apply Hsilent; now apply list_elem_of_further).
    change ("" +:+ ?s) with s. f_equal. lia.
Qed.

Lemma filter_none {A} (P : A -> bool) l :
  (forall x, x ∈ l -> P x = false) -> List.filter P l = [].
Proof.
  induction l as [|x l IH]; intros Hl; [ reflexivity | ].
  cbn [List.filter]. rewrite (Hl x) by apply list_elem_of_here.
  apply IH. intros y Hy. apply Hl. now apply list_elem_of_further.
Qed.

Lemma filter_app' {A} (P : A -> bool) l1 l2 :
  List.filter P (l1 ++ l2) = (List.filter P l1 ++ List.filter P l2)%list.
Proof.
  induction l1 as [|x l1 IH]; [ reflexivity | ].
  cbn [app List.filter]. destruct (P x); cbn [app]; now rewrite IH.
Qed.

(** list_alerts counts and lists the open incidents only, but numbers
    each by its position among all incidents: with incidents that are
    not open and no open one the answer is the sentence for no alerts, and
    an open incident after [n] that are not open is announced as one
    alert and headed with the number [n + 1]. *)
Theorem alerts_are_numbered_among_all_incidents projectID policiesResponse closed incident :
  (forall x, x ∈ closed -> tools.isOpen x = false) ->
  tools.alertsReport projectID policiesResponse {| Alerts.Incidents := closed |}
    = "No active alerts found." /\
  (tools.isOpen incident = true ->
   exists rest,
     tools.alertsReport projectID policiesResponse
       {| Alerts.Incidents := (closed ++ [incident])%list |}
     = "# Active Alerts in Project " +:+ projectID +:+ newline +:+ newline
       +:+ "Found 1 active alerts:" +:+ newline +:+ newline
       +:+ "## " +:+ GoFmt.d (Z.of_nat (length closed) + 1) +:+ ". Alert: "
       +:+ Alerts.ResourceDisplayName incident +:+ rest).
Proof.
  intros Hclosed. unfold tools.alertsReport. cbn [Alerts.Incidents]. split.
  - now rewrite (filter_none _ _ Hclosed).
  - intros Hopen.
    rewrite filter_app', (filter_none _ _ Hclosed).
    cbn [List.filter app]. rewrite Hopen. cbn [length Nat.eqb].
    unfold rangeString. rewrite rangeFrom_silent.
    2: { intros j x Hx. unfold tools.incidentBlock. now rewrite (Hclosed x Hx). }
    cbn [rangeFrom Nat.add]. unfold tools.incidentBlock at 1. rewrite Hopen. cbn [negb].
    cbv zeta. change (GoFmt.d (Z.of_nat 1)) with "1".
    rewrite !append_assoc.
    eexists. reflexivity.
Qed.

Lemma policyMapOf_snoc policies policy :
  tools.policyMapOf (policies ++ [policy]) =
  <[ Alerts.Name policy :=
     {| tools.PiDisplayName := Alerts.DisplayName policy;
        tools.PiDocumentation := Alerts.DocumentationContent policy;
        tools.PiConditions :=
          fold_left (fun conds condition =>
            <[ Alerts.CName condition := Alerts.CDisplayName condition ]> conds)
            (Alerts.Conditions policy) ∅ |} ]> (tools.policyMapOf policies).
Proof. unfold tools.policyMapOf. now rewrite fold_left_app. Qed.

Lemma policyMapOf_absent policies policyName :
  (forall policy, policy ∈ policies -> Alerts.Name policy <> policyName) ->
  tools.policyMapOf policies !! policyName = None.
Proof.
  induction policies as [|policy policies IH] using rev_ind; intros Habsent.
  - apply lookup_empty.
  - rewrite policyMapOf_snoc, lookup_insert_ne.
    + apply IH. intros p Hp. apply Habsent. apply elem_of_app. now left.
    + apply Habsent. apply elem_of_app. right. apply list_elem_of_here.
Qed.

(** The policy of an incident is looked up by name among the policies of
    the first response, where a later policy replaces an earlier one of
    the same name; an open incident whose policy is not among them is
    shown with an unknown policy and an unknown condition. *)
Theorem incident_policy_lookup policies :
  (forall policy,
     tools.PiDisplayName <$> tools.policyMapOf (policies ++ [policy]) !! Alerts.Name policy
       = Some (Alerts.DisplayName policy) /\
     tools.PiDocumentation <$> tools.policyMapOf (policies ++ [policy]) !! Alerts.Name policy
       = Some (Alerts.DocumentationContent policy)) /\
  (forall i incident,
     (forall policy, policy ∈ policies -> Alerts.Name policy <> Alerts.PolicyName incident) ->
     tools.isOpen incident = true ->
     exists rest,
       tools.incidentBlock (tools.policyMapOf policies) i incident =
         "## " +:+ GoFmt.d (Z.of_nat i + 1) +:+ ". Alert: "
         +:+ Alerts.ResourceDisplayName incident +:+ newline +:+ newline
         +:+ "- **Policy**: Unknown Policy" +:+ newline
         +:+ "- **Condition**: Unknown Condition" +:+ newline +:+ rest).
Proof.
  split.
  - intros policy. rewrite policyMapOf_snoc, lookup_insert_eq. split; reflexivity.
  - intros i incident Habsent Hopen.
    unfold tools.incidentBlock. rewrite Hopen. cbn [negb].
    rewrite (policyMapOf_absent _ _ Habsent). cbv zeta.
    eexists. reflexivity.
Qed.

(** ** Error groups *)

Lemma append_nil_r (s : string) : s +:+ "" = s.
Proof.
  induction s as [|c s IH]; [ reflexivity | ].
  change (String c (s +:+ "") = String c s). now rewrite IH.
Qed.

Lemma lastSegment_no_slash s cur :
  GoStrings.Contains s "/" = false -> GoStrings.lastSegment s cur = cur +:+ s.
Proof.
  revert cur. induction s as [|c s IH]; intros cur Hs.
  - cbn [GoStrings.lastSegment]. now rewrite append_nil_r.
  - cbn [GoStrings.Contains GoStrings.HasPrefix] in Hs.
    apply orb_false_iff in Hs as [Hc Hs].
    cbn [GoStrings.lastSegment]. rewrite Ascii.eqb_sym.
    destruct (Ascii.eqb "/" c); [ now destruct s | ].
    rewrite IH by exact Hs. now rewrite append_assoc.
Qed.

Lemma lastSegment_after_slash prefix s cur :
  GoStrings.lastSegment (prefix +:+ "/" +:+ s) cur = GoStrings.lastSegment s "".
Proof.
  revert cur. induction prefix as [|c prefix IH]; intros cur.
  - reflexivity.
  - change (GoStrings.lastSegment (String c (prefix +:+ "/" +:+ s)) cur
            = GoStrings.lastSegment s "").
    cbn [GoStrings.lastSegment]. destruct (Ascii.eqb c "/"); apply IH.
Qed.

(** list_active_issues shows, as the id of an error group, the part of
    the group's resource name after its last slash, and the whole name
    when it has no slash. *)
Theorem group_id_is_the_last_segment i stat group prefix groupID :
  errorreportingpb.Group stat = Some group ->
  GoStrings.Contains groupID "/" = false ->
  errorreportingpb.GroupName group = prefix +:+ "/" +:+ groupID \/
  errorreportingpb.GroupName group = groupID ->
  exists rest,
    tools.issueEntry i stat =
      Some (GoFmt.d (Z.of_nat i + 1) +:+ ". Error Group: " +:+ groupID +:+ newline
            +:+ "   Count: " +:+ GoFmt.d (errorreportingpb.Count stat) +:+ " occurrences"
            +:+ newline +:+ rest).
Proof.
  intros Hgroup Hid Hname. unfold tools.issueEntry. rewrite Hgroup.
  cbn [mbind option_bind].
  assert (Hseg : GoStrings.lastSegment (errorreportingpb.GroupName group) "" = groupID).
  { destruct Hname as [-> | ->].
    - rewrite lastSegment_after_slash. now rewrite lastSegment_no_slash.
    - now rewrite lastSegment_no_slash. }
  rewrite Hseg. eexists. reflexivity.
Qed.

(** ** Pod logs *)

(** get_pod_logs called without a container name renders the entries as
    if the container of the first entry had been asked for: the heading
    names that container and, when the first entry has one, no line says
    which container it comes from, whatever the labels of the entries. *)
Theorem pod_logs_take_the_first_container podName namespace timeRangeHours response :
  tools.podLogsReport podName namespace "" timeRangeHours response =
  tools.podLogsReport podName namespace
    (match PodLogs.Entries response with
     | first :: _ => tools.containerOf first
     | [] => ""
     end) timeRangeHours response /\
  (forall containerName entry labels,
     GoStrings.empty containerName = false ->
     tools.podLogLine containerName entry =
     tools.podLogLine containerName
       {| PodLogs.Timestamp := PodLogs.Timestamp entry;
          PodLogs.Severity := PodLogs.Severity entry;
          PodLogs.TextPayload := PodLogs.TextPayload entry;
          PodLogs.Json := PodLogs.Json entry;
          PodLogs.ResourceLabels := labels |}).
Proof.
  split.
  - unfold tools.podLogsReport.
    destruct (PodLogs.Entries response) as [|first rest]; [ reflexivity | ].
    change (GoStrings.empty "") with true. cbv beta iota zeta.
    destruct (GoStrings.empty (tools.containerOf first)) eqn:Hfirst;
      cbv beta iota zeta; rewrite ?Hfirst; reflexivity.
  - intros containerName entry labels Hname.
    unfold tools.podLogLine. rewrite Hname. reflexivity.
Qed.

(** ** Time ranges *)

(** A time range below one hour is an empty range: the hours lose their
    fraction when converted to a duration, so the start of the range is
    its end. *)
Theorem sub_hour_range_is_empty endTime m e :
  e < 0 -> Z.pos m < 2 ^ (- e) ->
  GoFloat.gt0 (S754_finite false m e) = true /\
  hoursBefore endTime (S754_finite false m e) = endTime.
Proof.
  intros He Hm. split; [ reflexivity | ].
  unfold hoursBefore, GoFloat.int, GoFloat.toInt, GoFloat.trunc.
  replace (0 <=? e) with false by (symmetry; apply Z.leb_gt; lia).
  rewrite Z.div_small by lia.
  vm_compute (- 2 ^ (64 - 1)). vm_compute (2 ^ (64 - 1)).
  cbn [Z.leb Z.compare Z.ltb andb Z.opp].
  change (GoFloat.wrap64 0) with 0. rewrite Z.mul_0_l.
  change (GoFloat.wrap64 0) with 0. unfold Add. lia.
Qed.

(** ** Requests *)


(** list_clusters asks for the clusters of all locations, with the
    wildcard [-], when the location is absent, not a string or empty. *)
Theorem clusters_of_all_locations h arguments w out projectID :
  arguments !! "project_id" = Some (VString projectID) ->
  nonEmptyString (arguments !! "location") = false ->
  server.invoke (registered h) "list_clusters" arguments w = Some out ->
  forall c req, ClientDo c req ∈ trace out ->
    http.URL req =
      "https://container.googleapis.com/v1/projects/" +:+ projectID
      +:+ "/locations/-/clusters".
Proof.
  intros Hproject Hlocation. lookup_tool. intros H; injection H as H.
  autounfold with handlers in H; cbn [mcp.Arguments] in H.
  rewrite Hproject in H. cbn [mcp.asString] in H.
  assert (Hempty : GoStrings.empty (mcp.asString (arguments !! "location")).1 = true).
  { destruct (arguments !! "location") as [ [ | | | [|] | | ] | ]; try reflexivity.
    discriminate Hlocation. }
  destruct (mcp.asString (arguments !! "location")) as [location ok].
  cbn [fst] in Hempty. rewrite Hempty in H.
  unfold_monad H; exec H.
  all: subst out; cbn [trace completion app].
  all: intros client0 req0 Hin.
  all: repeat (apply elem_of_cons in Hin as [Hin | Hin]);
       [ .. | apply elem_of_nil in Hin; contradiction ].
  all: try discriminate Hin.
  all: injection Hin as -> ->.
  all: reflexivity.
Qed.

(** ** Metrics *)

(** The value of a data point is its double value unless that is zero;
    a point whose value is the double 0 and has no other value set is
    shown as the boolean false, and a point without values as N/A. *)
Theorem zero_double_value_shows_false pd :
  match Metrics.Values pd with
  | [] =>
      tools.pointRow pd =
        "| " +:+ tools.formatTime (Metrics.EndTime (Metrics.Interval pd))
        +:+ " | N/A |" +:+ newline
  | v :: _ =>
      (GoFloat.nonzero (Metrics.DoubleValue v) = true ->
       tools.pointRow pd =
         "| " +:+ tools.formatTime (Metrics.EndTime (Metrics.Interval pd))
         +:+ " | " +:+ GoFmt.f 6 (Metrics.DoubleValue v) +:+ " |" +:+ newline) /\
      (GoFloat.nonzero (Metrics.DoubleValue v) = false ->
       Metrics.PvInt64Value v = "" -> Metrics.PvStringValue v = "" ->
       Metrics.PvBoolValue v = false ->
       tools.pointRow pd =
         "| " +:+ tools.formatTime (Metrics.EndTime (Metrics.Interval pd))
         +:+ " | false |" +:+ newline)
  end.
Proof.
  unfold tools.pointRow, tools.formatTime.
  destruct (Metrics.Values pd) as [|v rest]; [ reflexivity | ].
  split.
  - intros ->. reflexivity.
  - intros -> -> -> ->. reflexivity.
Qed.

(** ** Error Reporting requests *)

(** What the issue tools ask of Error Reporting: list_active_issues asks
    once, for the group statistics of the project, rounded alignment, and
    a page of max_results groups (its integer part as an int32) or of ten
    when max_results is absent or not a float64 above zero;
    get_issue_details asks once, for ten events of the group. *)
Theorem issue_tools_requests h arguments w out projectID :
  arguments !! "project_id" = Some (VString projectID) ->
  (server.invoke (registered h) "list_active_issues" arguments w = Some out ->
   forall e, e ∈ trace out ->
     match e with
     | ListGroupStats req =>
         req = {| errorreportingpb.ProjectName := "projects/" +:+ projectID;
                  errorreportingpb.TimeRangePeriod := errorreportingpb.PERIOD_1_DAY;
                  errorreportingpb.PageSize :=
                    match arguments !! "max_results" with
                    | Some (VNumber val) =>
                        if GoFloat.gt0 val then GoFloat.int32 val else 10
                    | _ => 10
                    end;
                  errorreportingpb.Alignment := errorreportingpb.ALIGNMENT_EQUAL_ROUNDED |}
     | NewErrorStatsClient _ => True
     | _ => False
     end) /\
  (forall errorGroupID,
     arguments !! "error_group_id" = Some (VString errorGroupID) ->
     server.invoke (registered h) "get_issue_details" arguments w = Some out ->
     forall e, e ∈ trace out ->
       match e with
       | ListEvents req =>
           req = {| errorreportingpb.EvProjectName := "projects/" +:+ projectID;
                    errorreportingpb.GroupId := errorGroupID;
                    errorreportingpb.EvPageSize := 10 |}
       | NewErrorStatsClient _ => True
       | _ => False
       end).
Proof.
  intros Hproject. split; [ | intros errorGroupID Hgroup ].
  all: lookup_tool; intros H; injection H as H.
  all: autounfold with handlers in H; cbn [mcp.Arguments] in H.
  all: rewrite ?Hproject, ?Hgroup in H; cbn [mcp.asString] in H.
  all: unfold_monad H; exec H.
  all: subst out; cbn [trace completion app].
  all: intros e Hin.
  all: repeat (apply elem_of_cons in Hin as [-> | Hin]);
       [ .. | apply elem_of_nil in Hin; contradiction ].
  all: try exact I.
  all: try reflexivity.
  all: f_equal.
  all: destruct (arguments !! "max_results") as [ [ | | val | | | ] | ];
       cbn [mcp.asFloat64 andb]; reflexivity.
Qed.

(** ** Instances *)


Lemma notFound_invoke :
  server.invoke (registered exampleHandler) "get_cluster_info" clusterArguments
    (stubWorld notFound) = Some notFoundOutcome.
Proof. vm_compute. reflexivity. Defined.

Lemma notFound_request :
  ClientDo {| http.Scopes := auth.ReadOnlyScopes |}
    {| http.Method := "GET";
       http.URL := "https://container.googleapis.com/v1/projects/p/locations/us-central1/clusters/c";
       http.ReqBody := None; http.Header := [] |} ∈ trace notFoundOutcome.
Proof. apply list_elem_of_here. Defined.


Lemma requests_go_to_the_tools_api_witness :
  server.invoke (registered exampleHandler) "get_cluster_info" clusterArguments
    (stubWorld notFound) = Some notFoundOutcome /\
  servedBy "get_cluster_info"
    {| http.Method := "GET";
       http.URL := "https://container.googleapis.com/v1/projects/p/locations/us-central1/clusters/c";
       http.ReqBody := None; http.Header := [] |}.
Proof.
  split; [ exact notFound_invoke | ].
  exact (proj1 (requests_go_to_the_tools_api exampleHandler "get_cluster_info"
                  clusterArguments (stubWorld notFound) notFoundOutcome notFound_invoke)
           _ _ notFound_request).
Defined.

Lemma documentation_tools_ask_nothing_witness :
  "search_gcp_docs" ∈ documentationTools /\
  server.invoke (registered exampleHandler) "search_gcp_docs" searchArguments
    (stubWorld (ok emptyObject)) = Some searchOutcome /\
  trace searchOutcome = [] /\
  server.invoke (registered exampleHandler) "search_gcp_docs" searchArguments
    (stubWorld notFound) = Some searchOutcome.
Proof.
  assert (Hin : "search_gcp_docs" ∈ documentationTools) by apply list_elem_of_here.
  assert (Hinv : server.invoke (registered exampleHandler) "search_gcp_docs" searchArguments
                   (stubWorld (ok emptyObject)) = Some searchOutcome)
    by (vm_compute; reflexivity).
  destruct (documentation_tools_ask_nothing exampleHandler "search_gcp_docs" searchArguments
              (stubWorld (ok emptyObject)) searchOutcome Hin Hinv) as (Htrace & _ & Hsame).
  split; [ exact Hin | ]. split; [ exact Hinv | ]. split; [ exact Htrace | ].
  apply Hsame. discriminate.
Defined.

Lemma only_a_missing_group_panics_witness :
  server.invoke (registered exampleHandler) "list_active_issues" demoArguments
    (statsWorld [grouplessStats]) = Some panicOutcome /\
  completion panicOutcome =
    Panicked "runtime error: invalid memory address or nil pointer dereference" /\
  exists req stats stat,
    ListGroupStats req ∈ trace panicOutcome /\
    listGroupStats (statsWorld [grouplessStats]) req = (stats, None) /\
    stat ∈ stats /\ errorreportingpb.Group stat = None.
Proof.
  assert (Hinv : server.invoke (registered exampleHandler) "list_active_issues" demoArguments
                   (statsWorld [grouplessStats]) = Some panicOutcome)
    by (vm_compute; reflexivity).
  assert (Hpanic : completion panicOutcome =
            Panicked "runtime error: invalid memory address or nil pointer dereference")
    by reflexivity.
  split; [ exact Hinv | ]. split; [ exact Hpanic | ].
  exact (proj2 (only_a_missing_group_panics exampleHandler "list_active_issues" demoArguments
                  (statsWorld [grouplessStats]) panicOutcome _ Hinv Hpanic)).
Defined.

Lemma known_error_code_decides_witness :
  codeAndMessage !! "error_code" = Some (VString "NOT_FOUND") /\
  is_Some (tools.errorDocs !! "NOT_FOUND") /\
  server.invoke (registered exampleHandler) "get_error_docs" codeAndMessage
    (stubWorld (ok emptyObject)) =
  server.invoke (registered exampleHandler) "get_error_docs"
    {[ "error_code" := VString "NOT_FOUND" ]} (stubWorld notFound).
Proof.
  assert (Hcode : codeAndMessage !! "error_code" = Some (VString "NOT_FOUND"))
    by (vm_compute; reflexivity).
  eassert (Hdoc : tools.errorDocs !! "NOT_FOUND" = Some _) by (vm_compute; reflexivity).
  split; [ exact Hcode | ]. split; [ eexists; exact Hdoc | ].
  exact (proj1 (known_error_code_decides exampleHandler codeAndMessage
                  (stubWorld (ok emptyObject)) "NOT_FOUND" _ Hcode Hdoc
                  exampleHandler (stubWorld notFound))).
Defined.

Lemma empty_error_message_witness :
  fair (stubWorld (ok emptyObject)) /\
  exists entry,
    entry ∈ map_to_list tools.errorDocs /\
    head (rangeMap (stubWorld (ok emptyObject)) 0 tools.errorDocs) = Some entry /\
    tools.lookupErrorDoc (stubWorld (ok emptyObject)) ("", false) ("", true) = Some entry.2.
Proof.
  split; [ apply stub_fair | ].
  exact (empty_error_message_matches_any_document (stubWorld (ok emptyObject)) "" false
           (stub_fair _) eq_refl).
Defined.

Lemma closed_incident : forall x, x ∈ [incidentIn "CLOSED"] -> tools.isOpen x = false.
Proof.
  intros x Hx. apply elem_of_cons in Hx as [-> | Hx]; [ reflexivity | ].
  now apply elem_of_nil in Hx.
Defined.

Lemma alerts_are_numbered_witness :
  tools.alertsReport "demo" {| Alerts.AlertPolicies := [] |}
    {| Alerts.Incidents := [incidentIn "CLOSED"] |} = "No active alerts found." /\
  exists rest,
    tools.alertsReport "demo" {| Alerts.AlertPolicies := [] |}
      {| Alerts.Incidents := [incidentIn "CLOSED"; incidentIn "OPEN"] |}
    = "# Active Alerts in Project demo" +:+ newline +:+ newline
      +:+ "Found 1 active alerts:" +:+ newline +:+ newline
      +:+ "## 2. Alert: frontend" +:+ rest.
Proof.
  destruct (alerts_are_numbered_among_all_incidents "demo" {| Alerts.AlertPolicies := [] |}
              [incidentIn "CLOSED"] (incidentIn "OPEN") closed_incident) as [Hnone Hone].
  split; [ exact Hnone | ].
  exact (Hone eq_refl).
Defined.

Lemma group_id_witness :
  exists rest,
    tools.issueEntry 0 groupedStats =
      Some ("1. Error Group: CJ7Hx" +:+ newline
            +:+ "   Count: 3 occurrences" +:+ newline +:+ rest).
Proof.
  exact (group_id_is_the_last_segment 0 groupedStats
           {| errorreportingpb.GroupName := "projects/demo/groups/CJ7Hx" |}
           "projects/demo/groups" "CJ7Hx" eq_refl eq_refl (or_introl eq_refl)).
Defined.

Lemma sub_hour_range_witness :
  GoFloat.gt0 halfAnHour = true /\ hoursBefore 1700000000000000000 halfAnHour = 1700000000000000000.
Proof.
  apply (sub_hour_range_is_empty 1700000000000000000 4503599627370496 (-53)).
  - reflexivity.
  - reflexivity.
Defined.


Lemma clusters_of_all_locations_witness :
  demoArguments !! "project_id" = Some (VString "demo") /\
  nonEmptyString (demoArguments !! "location") = false /\
  server.invoke (registered exampleHandler) "list_clusters" demoArguments
    (stubWorld (ok emptyObject)) = Some demoClustersOutcome /\
  forall c req, ClientDo c req ∈ trace demoClustersOutcome ->
    http.URL req = "https://container.googleapis.com/v1/projects/demo/locations/-/clusters".
Proof.
  assert (Hproject : demoArguments !! "project_id" = Some (VString "demo"))
    by (vm_compute; reflexivity).
  assert (Hlocation : nonEmptyString (demoArguments !! "location") = false)
    by (vm_compute; reflexivity).
  assert (Hinv : server.invoke (registered exampleHandler) "list_clusters" demoArguments
                   (stubWorld (ok emptyObject)) = Some demoClustersOutcome)
    by (vm_compute; reflexivity).
  split; [ exact Hproject | ]. split; [ exact Hlocation | ]. split; [ exact Hinv | ].
  exact (clusters_of_all_locations exampleHandler demoArguments
           (stubWorld (ok emptyObject)) demoClustersOutcome "demo" Hproject Hlocation Hinv).
Defined.

Lemma issue_tools_requests_witness :
  demoArguments !! "project_id" = Some (VString "demo") /\
  server.invoke (registered exampleHandler) "list_active_issues" demoArguments
    (statsWorld [groupedStats]) = Some issuesOutcome /\
  forall e, e ∈ trace issuesOutcome ->
    match e with
    | ListGroupStats req =>
        req = {| errorreportingpb.ProjectName := "projects/demo";
                 errorreportingpb.TimeRangePeriod := errorreportingpb.PERIOD_1_DAY;
                 errorreportingpb.PageSize := 10;
                 errorreportingpb.Alignment := errorreportingpb.ALIGNMENT_EQUAL_ROUNDED |}
    | NewErrorStatsClient _ => True
    | _ => False
    end.
Proof.
  assert (Hproject : demoArguments !! "project_id" = Some (VString "demo"))
    by (vm_compute; reflexivity).
  assert (Hinv : server.invoke (registered exampleHandler) "list_active_issues" demoArguments
                   (statsWorld [groupedStats]) = Some issuesOutcome)
    by (vm_compute; reflexivity).
  split; [ exact Hproject | ]. split; [ exact Hinv | ].
  exact (proj1 (issue_tools_requests exampleHandler demoArguments
                  (statsWorld [groupedStats]) issuesOutcome "demo" Hproject) Hinv).
Defined.
